(** * Generic Medicine Finder: the tools of med_tool.js and the handler of server.js

    A shallow embedding of the seven agent tools, of [main] and of the
    [POST /api/search] handler.  The two upstream services (the RxNav
    vocabulary service reached through [axios.get], and the search-grounded
    generation service reached through [generateText]), the agent run and the
    runtime's [encodeURIComponent] are the fields of a [World]; every theorem
    quantifies over all worlds, that is over every outcome of the upstream
    calls.  A tool is a computation that either completes normally or throws,
    and that records the outbound calls it issues. *)

From stdpp Require Import base option list strings gmap.

Set Warnings "-register-all".

(** ** JavaScript values, errors and completions *)

(** The JSON values a request body can carry, and [undefined] for a missing
    property.  Numbers are kept as integers: only the test against zero is
    used. *)
Inductive JsValue : Type :=
| JsUndefined
| JsNull
| JsBool (b : bool)
| JsNumber (n : Z)
| JsString (s : string)
| JsArray (items : list JsValue)
| JsObject (fields : list (string * JsValue)).

(** [if (v)] : the values that are not falsy. *)
Definition truthy (v : JsValue) : bool :=
  match v with
  | JsUndefined | JsNull => false
  | JsBool b => b
  | JsNumber n => negb (Z.eqb n 0)
  | JsString s => negb (bool_decide (s = EmptyString))
  | JsArray _ | JsObject _ => true
  end.

Inductive ErrorKind : Type :=
| AxiosError      (* transport failure of axios.get: network, timeout, non-2xx *)
| AIError         (* failure of generateText: quota, network, malformed answer *)
| AgentError      (* failure of the agent run *)
| TypeError       (* property read on undefined or null *)
| URIError.       (* encodeURIComponent on a malformed string *)

Record JsError : Type := { kind : ErrorKind; message : string }.

Inductive Completion (A : Type) : Type :=
| Normal (value : A)
| Thrown (e : JsError).
Arguments Normal {A} value.
Arguments Thrown {A} e.

#[global] Instance Completion_ret : MRet Completion := λ A a, Normal a.
#[global] Instance Completion_bind : MBind Completion := λ A B k c,
  match c with
  | Normal a => k a
  | Thrown e => Thrown e
  end.

(** The conversion to a string that a template literal applies to a value
    parsed from JSON.  An object with an own property toString cannot be
    converted: the property is not callable, and the inherited valueOf
    returns the object itself.  An array is joined, converting each element
    that is neither null nor undefined.  Every other value converts. *)
Fixpoint stringifies (v : JsValue) : bool :=
  match v with
  | JsArray items => forallb stringifies items
  | JsObject fields =>
      negb (existsb (λ field, bool_decide (field.1 = "toString")) fields)
  | _ => true
  end.

(** Evaluating a template literal that interpolates [v].  The text is only
    written to the console and is not kept; a failed conversion throws. *)
Definition templateLiteral (v : JsValue) : Completion () :=
  if stringifies v then Normal ()
  else Thrown {| kind := TypeError;
                 message := "Cannot convert object to primitive value" |}.

(** ** The vocabulary service's responses *)

Module RxNav.
Record Concept : Type := { rxcui : string; name : string }.

(** [conceptProperties] is absent for the concept types without a match;
    an array, also an empty one, is truthy. *)
Record ConceptGroup : Type :=
  { tty : string; conceptProperties : option (list Concept) }.

Record Group : Type := { conceptGroup : option (list ConceptGroup) }.

(** [response.data]: [drugGroup] for drugs.json, [allRelatedGroup] for
    allrelated.json; either property may be absent. *)
Record Data : Type :=
  { drugGroup : option Group; allRelatedGroup : option Group }.

(** [data] is [None] when the body is the JSON value null. *)
Record Response : Type := { data : option Data }.
End RxNav.

(** ** The generation service's answers *)

Module Grounding.
Record Web : Type := { title : string; uri : string }.
Record Chunk : Type := { web : option Web }.
Record GroundingMetadata : Type :=
  { groundingChunks : option (list Chunk);
    webSearchQueries : option (list string) }.
Record Google : Type := { groundingMetadata : option GroundingMetadata }.
Record ProviderMetadata : Type := { google : option Google }.
Record Generated : Type :=
  { text : string; providerMetadata : option ProviderMetadata }.
End Grounding.

(** ** Outbound calls and the world *)

Inductive Event : Type :=
| EvGet (url : string)           (* axios.get(url) *)
| EvGenerate (prompt : string)   (* generateText({ ..., prompt }) *)
| EvRun (query : JsValue).       (* run(agent, query) *)

Record World : Type :=
  { encodeURIComponent : string → Completion string;
    axios_get : string → Completion RxNav.Response;
    generateText : string → Completion Grounding.Generated;
    run : JsValue → Completion JsValue }.

(** A computation: its completion and the outbound calls issued on the way,
    oldest first. *)
Definition M (A : Type) : Type := (Completion A * list Event)%type.

#[global] Instance M_ret : MRet M := λ A a, (Normal a, []).
#[global] Instance M_bind : MBind M := λ A B k m,
  match m with
  | (Normal a, t) => let r := k a in (r.1, t ++ r.2)
  | (Thrown e, t) => (Thrown e, t)
  end.

Definition lift {A} (c : Completion A) : M A := (c, []).

(** [try { m } catch (error) { h error }] *)
Definition try_catch {A} (m : M A) (h : JsError → M A) : M A :=
  match m with
  | (Normal a, t) => (Normal a, t)
  | (Thrown e, t) => let r := h e in (r.1, t ++ r.2)
  end.

Definition completion {A} (m : M A) : Completion A := m.1.
Definition calls {A} (m : M A) : list Event := m.2.

Section Calls.
Context (w : World).

Definition get (url : string) : M RxNav.Response :=
  (axios_get w url, [EvGet url]).
Definition generate (prompt : string) : M Grounding.Generated :=
  (generateText w prompt, [EvGenerate prompt]).
Definition run_agent (query : JsValue) : M JsValue :=
  (run w query, [EvRun query]).
End Calls.

(** ** Strings *)

Definition dquote : string := String (Ascii.ascii_of_nat 34) EmptyString.
Definition nl : string := String (Ascii.ascii_of_nat 10) EmptyString.

(** [s.includes(sub)] *)
Fixpoint includes (sub s : string) : bool :=
  String.prefix sub s ||
  match s with
  | EmptyString => false
  | String _ s' => includes sub s'
  end.

(** The text after the first [c], when [c] occurs. *)
Fixpoint after_first (c : Ascii.ascii) (s : string) : option string :=
  match s with
  | EmptyString => None
  | String a s' => if decide (a = c) then Some s' else after_first c s'
  end.

(** The text before the first [c] (all of it when [c] does not occur). *)
Fixpoint before_first (c : Ascii.ascii) (s : string) : string :=
  match s with
  | EmptyString => EmptyString
  | String a s' =>
      if decide (a = c) then EmptyString else String a (before_first c s')
  end.

(** [s.split(c)[1]] for a one-character separator. *)
Definition split_1 (c : Ascii.ascii) (s : string) : option string :=
  before_first c <$> after_first c s.

(** [s.replace(c, '')] for a one-character pattern: the first [c] removed. *)
Fixpoint remove_first (c : Ascii.ascii) (s : string) : string :=
  match s with
  | EmptyString => EmptyString
  | String a s' => if decide (a = c) then s' else String a (remove_first c s')
  end.

(** [a || b] on strings that may be undefined. *)
Definition or_else (a : option string) (b : string) : string :=
  match a with
  | Some s => if bool_decide (s = EmptyString) then b else s
  | None => b
  end.

Definition rxnavDrugsUrl (encoded : string) : string :=
  "https://rxnav.nlm.nih.gov/REST/drugs.json?name=" +:+ encoded.
Definition rxnavRelatedUrl (rxcui : string) : string :=
  "https://rxnav.nlm.nih.gov/REST/rxcui/" +:+ rxcui +:+ "/allrelated.json".

(** [response.data.drugGroup?.conceptGroup]: reading a property of a null
    [data] throws. *)
Definition nullRead (prop : string) : JsError :=
  {| kind := TypeError;
     message := "Cannot read properties of null (reading '" +:+ prop +:+ "')" |}.
Definition undefinedRead (prop : string) : JsError :=
  {| kind := TypeError;
     message :=
       "Cannot read properties of undefined (reading '" +:+ prop +:+ "')" |}.

Definition drugGroup_conceptGroup (r : RxNav.Response)
  : Completion (option (list RxNav.ConceptGroup)) :=
  match RxNav.data r with
  | None => Thrown (nullRead "drugGroup")
  | Some d => Normal (RxNav.drugGroup d ≫= RxNav.conceptGroup)
  end.

Definition allRelatedGroup_conceptGroup (r : RxNav.Response)
  : Completion (option (list RxNav.ConceptGroup)) :=
  match RxNav.data r with
  | None => Thrown (nullRead "allRelatedGroup")
  | Some d => Normal (RxNav.allRelatedGroup d ≫= RxNav.conceptGroup)
  end.

(** ** Helper: the description of a concept type *)

(** The value of [descriptions[tty] || tty].  [descriptions] is an object
    literal, so a [tty] that names a member of Object.prototype reads that
    member: a function, which JSON.stringify leaves out of the entry, or for
    __proto__ the prototype object itself. *)
Inductive Description : Type :=
| DescriptionText (text : string)
| InheritedFunction (member : string)
| PrototypeObject.

Definition objectPrototypeFunctions : list string :=
  [ "constructor"; "__defineGetter__"; "__defineSetter__"; "hasOwnProperty";
    "__lookupGetter__"; "__lookupSetter__"; "isPrototypeOf";
    "propertyIsEnumerable"; "toString"; "valueOf"; "toLocaleString" ].

Definition getTypeDescription (tty : string) : Description :=
  if decide (tty = "SCD") then
    DescriptionText "Generic Drug (Recommended - Same quality, lower cost)"
  else if decide (tty = "SBD") then
    DescriptionText "Branded Drug (More expensive)"
  else if decide (tty = "BN") then DescriptionText "Brand Name"
  else if decide (tty = "IN") then DescriptionText "Active Ingredient"
  else if decide (tty = "MIN") then DescriptionText "Multiple Ingredients"
  else if decide (tty = "DF") then DescriptionText "Dosage Form"
  else if decide (tty = "SCDC") then DescriptionText "Generic Drug Component"
  else if decide (tty = "SBDC") then DescriptionText "Branded Drug Component"
  else if decide (tty ∈ objectPrototypeFunctions) then InheritedFunction tty
  else if decide (tty = "__proto__") then PrototypeObject
  else DescriptionText tty.

(** ** Tool 1: search_medicine *)

Module searchMedicine.
Record Entry : Type :=
  { rxcui : string; name : string; type : string;
    typeDescription : Description }.

(** The three object literals handed to JSON.stringify. *)
Inductive Payload : Type :=
| NotFound (message suggestion : string)
| Found (searchTerm : string) (results : list Entry) (totalFound : nat)
| Failed (error : string).

Definition success (p : Payload) : bool :=
  match p with
  | Found _ _ _ => true
  | NotFound _ _ | Failed _ => false
  end.

Definition entry (group : RxNav.ConceptGroup) (drug : RxNav.Concept) : Entry :=
  {| rxcui := RxNav.rxcui drug;
     name := RxNav.name drug;
     type := RxNav.tty group;
     typeDescription := getTypeDescription (RxNav.tty group) |}.

(** One turn of the outer loop: the concepts of [group] are pushed in
    order. *)
Definition push_group (results : list Entry) (group : RxNav.ConceptGroup)
  : list Entry :=
  match RxNav.conceptProperties group with
  | Some props => foldl (λ acc drug, acc ++ [entry group drug]) results props
  | None => results
  end.

Definition collect (groups : list RxNav.ConceptGroup) : list Entry :=
  foldl push_group [] groups.

Definition suggestion_text : string :=
  "Common generic names: Paracetamol=Acetaminophen, Ibuprofen, Aspirin, Metformin, Omeprazole".

Section Tool.
Context (w : World).

Definition body (medicineName : string) : M Payload :=
  encoded ← lift (encodeURIComponent w medicineName);
  response ← get w (rxnavDrugsUrl encoded);
  conceptGroup ← lift (drugGroup_conceptGroup response);
  match conceptGroup with
  | None =>
      mret (NotFound
              ("Could not find medicine " +:+ dquote +:+ medicineName
               +:+ dquote
               +:+ ". Please check the spelling or try the generic name.")
              suggestion_text)
  | Some groups =>
      let results := collect groups in
      mret (Found medicineName (take 10 results) (length results))
  end.

Definition execute (medicineName : string) : M Payload :=
  try_catch (body medicineName) (λ error, mret (Failed (message error))).
End Tool.
End searchMedicine.

(** ** Tool 2: get_medicine_details *)

Module getMedicineDetails.
Record Named : Type := { name : string; rxcui : string }.
Record Typed : Type := { t_name : string; t_rxcui : string; type : string }.

Record Details : Type :=
  { d_rxcui : string;
    ingredient : option (list Named);
    genericDrug : option (list Typed);
    brandNames : list Named;
    brandedDrugs : list Typed;
    dosageForm : option (list string) }.

Inductive Payload : Type :=
| NotFound (message : string)
| Found (data : Details) (recommendation : string)
| Failed (error : string).

Definition named (p : RxNav.Concept) : Named :=
  {| name := RxNav.name p; rxcui := RxNav.rxcui p |}.
Definition typed (ty : string) (p : RxNav.Concept) : Typed :=
  {| t_name := RxNav.name p; t_rxcui := RxNav.rxcui p; type := ty |}.

(** The switch on [group.tty]; every matching group overwrites its field. *)
Definition step (result : Details) (group : RxNav.ConceptGroup) : Details :=
  match RxNav.conceptProperties group with
  | None => result
  | Some props =>
      let tty := RxNav.tty group in
      if decide (tty = "IN") then
        {| d_rxcui := d_rxcui result; ingredient := Some (named <$> props);
           genericDrug := genericDrug result; brandNames := brandNames result;
           brandedDrugs := brandedDrugs result;
           dosageForm := dosageForm result |}
      else if decide (tty = "SCD") then
        {| d_rxcui := d_rxcui result; ingredient := ingredient result;
           genericDrug := Some (typed "GENERIC" <$> props);
           brandNames := brandNames result;
           brandedDrugs := brandedDrugs result;
           dosageForm := dosageForm result |}
      else if decide (tty = "BN") then
        {| d_rxcui := d_rxcui result; ingredient := ingredient result;
           genericDrug := genericDrug result; brandNames := named <$> props;
           brandedDrugs := brandedDrugs result;
           dosageForm := dosageForm result |}
      else if decide (tty = "SBD") then
        {| d_rxcui := d_rxcui result; ingredient := ingredient result;
           genericDrug := genericDrug result; brandNames := brandNames result;
           brandedDrugs := typed "BRANDED" <$> props;
           dosageForm := dosageForm result |}
      else if decide (tty = "DF") then
        {| d_rxcui := d_rxcui result; ingredient := ingredient result;
           genericDrug := genericDrug result; brandNames := brandNames result;
           brandedDrugs := brandedDrugs result;
           dosageForm := Some (RxNav.name <$> props) |}
      else result
  end.

Definition initial (rxcui : string) : Details :=
  {| d_rxcui := rxcui; ingredient := None; genericDrug := None;
     brandNames := []; brandedDrugs := []; dosageForm := None |}.

Section Tool.
Context (w : World).

Definition body (rxcui : string) : M Payload :=
  response ← get w (rxnavRelatedUrl rxcui);
  conceptGroup ← lift (allRelatedGroup_conceptGroup response);
  match conceptGroup with
  | None =>
      mret (NotFound "Could not find detailed information for this medicine.")
  | Some groups =>
      mret (Found (foldl step (initial rxcui) groups)
              "The GENERIC option (SCD type) has the same active ingredient and dosage as branded versions but typically costs much less.")
  end.

Definition execute (rxcui : string) : M Payload :=
  try_catch (body rxcui) (λ error, mret (Failed (message error))).
End Tool.
End getMedicineDetails.

(** ** Tool 3: find_generic_equivalent *)

Module findGenericEquivalent.
Record Named : Type := { name : string; rxcui : string }.

Record Recommendation : Type :=
  { buyThis : string;
    r_activeIngredient : option string;
    avoidTheseBrands : list string;
    savingsMessage : string }.

Record Result : Type :=
  { searchedFor : string;
    identifiedAs : string;
    activeIngredient : option string;
    genericVersion : option (list Named);
    brandedVersions : list Named;
    recommendation : option Recommendation }.

Inductive Payload : Type :=
| NotFound (message : string)
| Found (data : Result)
| Failed (error : string).

Definition named (p : RxNav.Concept) : Named :=
  {| name := RxNav.name p; rxcui := RxNav.rxcui p |}.

(** The first group with [conceptProperties] of type SCD or SBD ends the
    loop; its first concept is the target, and reading [rxcui] of the
    missing first element of an empty array throws. *)
Fixpoint find_target (groups : list RxNav.ConceptGroup)
  : Completion (option RxNav.Concept) :=
  match groups with
  | [] => Normal None
  | group :: rest =>
      match RxNav.conceptProperties group with
      | Some props =>
          if bool_decide (RxNav.tty group = "SCD")
             || bool_decide (RxNav.tty group = "SBD")
          then match head props with
               | Some p => Normal (Some p)
               | None => Thrown (undefinedRead "rxcui")
               end
          else find_target rest
      | None => find_target rest
      end
  end.

Definition step (result : Result) (group : RxNav.ConceptGroup) : Result :=
  match RxNav.conceptProperties group with
  | None => result
  | Some props =>
      let tty := RxNav.tty group in
      let r1 :=
        if decide (tty = "IN") then
          {| searchedFor := searchedFor result;
             identifiedAs := identifiedAs result;
             activeIngredient := Some (String.concat ", " (RxNav.name <$> props));
             genericVersion := genericVersion result;
             brandedVersions := brandedVersions result;
             recommendation := recommendation result |}
        else result in
      let r2 :=
        if decide (tty = "SCD") then
          {| searchedFor := searchedFor r1;
             identifiedAs := identifiedAs r1;
             activeIngredient := activeIngredient r1;
             genericVersion := Some (named <$> props);
             brandedVersions := brandedVersions r1;
             recommendation := recommendation r1 |}
        else r1 in
      if decide (tty = "SBD") then
        {| searchedFor := searchedFor r2;
           identifiedAs := identifiedAs r2;
           activeIngredient := activeIngredient r2;
           genericVersion := genericVersion r2;
           brandedVersions := named <$> props;
           recommendation := recommendation r2 |}
      else r2
  end.

(** [b.name.split('[')[1]?.replace(']', '') || b.name] *)
Definition brandOf (b : Named) : string :=
  or_else (remove_first (Ascii.ascii_of_nat 93)
             <$> split_1 (Ascii.ascii_of_nat 91) (name b))
          (name b).

Definition recommend (result : Result) : Result :=
  match genericVersion result with
  | Some (g :: _) =>
      {| searchedFor := searchedFor result;
         identifiedAs := identifiedAs result;
         activeIngredient := activeIngredient result;
         genericVersion := genericVersion result;
         brandedVersions := brandedVersions result;
         recommendation :=
           Some {| buyThis := name g;
                   r_activeIngredient := activeIngredient result;
                   avoidTheseBrands := brandOf <$> brandedVersions result;
                   savingsMessage :=
                     "Generic medicines contain the EXACT SAME active ingredient in the EXACT SAME dosage as branded medicines. They are equally safe and effective but cost much less!" |} |}
  | _ => result
  end.

Section Tool.
Context (w : World).

Definition body (brandName : string) : M Payload :=
  encoded ← lift (encodeURIComponent w brandName);
  searchResponse ← get w (rxnavDrugsUrl encoded);
  conceptGroup ← lift (drugGroup_conceptGroup searchResponse);
  match conceptGroup with
  | None =>
      mret (NotFound
              ("Could not find " +:+ dquote +:+ brandName +:+ dquote
               +:+ ". Try searching with just the medicine name without dosage."))
  | Some groups =>
      target ← lift (find_target groups);
      match target with
      | Some p =>
          if bool_decide (RxNav.rxcui p = EmptyString) then
            mret (NotFound "Could not identify a specific drug formulation. Please provide more details like dosage.")
          else
            relatedResponse ← get w (rxnavRelatedUrl (RxNav.rxcui p));
            related ← lift (allRelatedGroup_conceptGroup relatedResponse);
            let result :=
              {| searchedFor := brandName; identifiedAs := RxNav.name p;
                 activeIngredient := None; genericVersion := None;
                 brandedVersions := []; recommendation := None |} in
            let result :=
              match related with
              | Some rgroups => foldl step result rgroups
              | None => result
              end in
            mret (Found (recommend result))
      | None =>
          mret (NotFound "Could not identify a specific drug formulation. Please provide more details like dosage.")
      end
  end.

Definition execute (brandName : string) : M Payload :=
  try_catch (body brandName) (λ error, mret (Failed (message error))).
End Tool.
End findGenericEquivalent.

(** ** Tool 4: get_available_dosages *)

Module getAvailableDosages.
Record Formulation : Type := { name : string; rxcui : string }.

Inductive Payload : Type :=
| NotFound (message : string)
| Found (ingredient : string)
        (availableGenericFormulations : list Formulation) (note : string)
| Failed (error : string).

Definition formulation (drug : RxNav.Concept) : Formulation :=
  {| name := RxNav.name drug; rxcui := RxNav.rxcui drug |}.

(** The inner loop: a concept is pushed unless its name includes " / ". *)
Definition push_drug (genericDosages : list Formulation)
    (drug : RxNav.Concept) : list Formulation :=
  if includes " / " (RxNav.name drug) then genericDosages
  else genericDosages ++ [formulation drug].

(** The outer loop: only SCD groups with [conceptProperties] are read. *)
Definition push_group (genericDosages : list Formulation)
    (group : RxNav.ConceptGroup) : list Formulation :=
  if decide (RxNav.tty group = "SCD") then
    match RxNav.conceptProperties group with
    | Some props => foldl push_drug genericDosages props
    | None => genericDosages
    end
  else genericDosages.

Definition collect (groups : list RxNav.ConceptGroup) : list Formulation :=
  foldl push_group [] groups.

Section Tool.
Context (w : World).

Definition body (ingredientName : string) : M Payload :=
  encoded ← lift (encodeURIComponent w ingredientName);
  response ← get w (rxnavDrugsUrl encoded);
  conceptGroup ← lift (drugGroup_conceptGroup response);
  match conceptGroup with
  | None =>
      mret (NotFound ("Could not find dosages for " +:+ dquote
                      +:+ ingredientName +:+ dquote +:+ "."))
  | Some groups =>
      mret (Found ingredientName (collect groups)
              "These are pure generic formulations without combination drugs. Ask your doctor which dosage is right for you.")
  end.

Definition execute (ingredientName : string) : M Payload :=
  try_catch (body ingredientName) (λ error, mret (Failed (message error))).
End Tool.
End getAvailableDosages.

(** ** Citations out of the grounding metadata *)

Record Source : Type := { title : string; url : string }.

(** [chunk => ({ title: chunk.web.title, url: chunk.web.uri })]: reading
    [title] of an absent [web] throws. *)
Definition toSource (chunk : Grounding.Chunk) : Completion Source :=
  match Grounding.web chunk with
  | Some web =>
      Normal {| title := Grounding.title web; url := Grounding.uri web |}
  | None => Thrown (undefinedRead "title")
  end.

(** [chunks.filter(chunk => chunk.web)] *)
Definition withWeb (chunks : list Grounding.Chunk) : list Grounding.Chunk :=
  filter (λ chunk, is_Some (Grounding.web chunk)) chunks.

(** [providerMetadata?.google] then [metadata?.groundingMetadata] *)
Definition groundingMetadataOf (g : Grounding.Generated)
  : option Grounding.GroundingMetadata :=
  (Grounding.providerMetadata g ≫= Grounding.google)
    ≫= Grounding.groundingMetadata.

(** [groundingMetadata?.webSearchQueries || []] *)
Definition searchQueriesOf (gm : option Grounding.GroundingMetadata)
  : list string :=
  default [] (gm ≫= Grounding.webSearchQueries).

Fixpoint foldlM {A B} (f : A → B → Completion A) (a : A) (l : list B)
  : Completion A :=
  match l with
  | [] => Normal a
  | b :: l' => a' ← f a b; foldlM f a' l'
  end.

(** ** The main tool: find_generic_with_prices *)

Module findGenericWithPrices.
Record ApiResult : Type :=
  { genericName : option string;
    brandNames : list string;
    activeIngredient : option string;
    dosageForm : option string }.

Inductive IndianPrices : Type :=
| Prices (data : string) (sources : list Source) (searchQueries : list string)
| PricesError (error : string).

(** The local object [result]. *)
Record Result : Type :=
  { query : string;
    r_apiData : option ApiResult;
    r_indianPrices : option IndianPrices;
    r_error : option string }.

(** The object literal handed to JSON.stringify. *)
Record Payload : Type :=
  { success : bool;
    medicine : string;
    apiData : option ApiResult;
    indianPrices : option IndianPrices;
    tip : string }.

(** The three locals of the first loop. *)
Record Found : Type :=
  { genericDrug : option RxNav.Concept;
    brandedDrug : option RxNav.Concept;
    ingredient : option RxNav.Concept }.

Definition nothingFound : Found :=
  {| genericDrug := None; brandedDrug := None; ingredient := None |}.

(** One turn of the loop over the name search's groups.  A local is
    assigned while it is still falsy; [conceptProperties[0]] of an empty
    array is undefined and leaves it so. *)
Definition scan (found : Found) (group : RxNav.ConceptGroup) : Found :=
  match RxNav.conceptProperties group with
  | None => found
  | Some props =>
      let tty := RxNav.tty group in
      let f1 :=
        if bool_decide (tty = "SCD") && negb (bool_decide (is_Some (genericDrug found)))
        then {| genericDrug := head props; brandedDrug := brandedDrug found;
                ingredient := ingredient found |}
        else found in
      let f2 :=
        if bool_decide (tty = "SBD") && negb (bool_decide (is_Some (brandedDrug f1)))
        then {| genericDrug := genericDrug f1; brandedDrug := head props;
                ingredient := ingredient f1 |}
        else f1 in
      if bool_decide (tty = "IN") && negb (bool_decide (is_Some (ingredient f2)))
      then {| genericDrug := genericDrug f2; brandedDrug := brandedDrug f2;
              ingredient := head props |}
      else f2
  end.

(** [genericDrug || brandedDrug] *)
Definition target (found : Found) : option RxNav.Concept :=
  match genericDrug found with
  | Some p => Some p
  | None => brandedDrug found
  end.

(** [group.conceptProperties[0].name] *)
Definition firstName (props : list RxNav.Concept) : Completion string :=
  match head props with
  | Some p => Normal (RxNav.name p)
  | None => Thrown (undefinedRead "name")
  end.

Definition emptyApiResult : ApiResult :=
  {| genericName := None; brandNames := []; activeIngredient := None;
     dosageForm := None |}.

(** One turn of the loop over the related concepts' groups: four
    independent tests, each assigning its field. *)
Definition derive (apiResult : ApiResult) (group : RxNav.ConceptGroup)
  : Completion ApiResult :=
  match RxNav.conceptProperties group with
  | None => Normal apiResult
  | Some props =>
      let tty := RxNav.tty group in
      a1 ← (if decide (tty = "IN") then
              n ← firstName props;
              Normal {| genericName := genericName apiResult;
                        brandNames := brandNames apiResult;
                        activeIngredient := Some n;
                        dosageForm := dosageForm apiResult |}
            else Normal apiResult);
      a2 ← (if decide (tty = "SCD") then
              n ← firstName props;
              Normal {| genericName := Some n;
                        brandNames := brandNames a1;
                        activeIngredient := activeIngredient a1;
                        dosageForm := dosageForm a1 |}
            else Normal a1);
      a3 ← (if decide (tty = "BN") then
              Normal {| genericName := genericName a2;
                        brandNames := RxNav.name <$> take 5 props;
                        activeIngredient := activeIngredient a2;
                        dosageForm := dosageForm a2 |}
            else Normal a2);
      if decide (tty = "DF") then
        n ← firstName props;
        Normal {| genericName := genericName a3;
                  brandNames := brandNames a3;
                  activeIngredient := activeIngredient a3;
                  dosageForm := Some n |}
      else Normal a3
  end.

(** [groundingChunks.filter(chunk => chunk.web).slice(0, 5).map(...)] *)
Definition extractSources (gm : option Grounding.GroundingMetadata)
  : Completion (list Source) :=
  match gm ≫= Grounding.groundingChunks with
  | Some chunks => mapM toSource (take 5 (withWeb chunks))
  | None => Normal []
  end.

Definition searchPrompt (medicineName saltName : string) : string :=
  "Find current medicine prices in India for " +:+ dquote +:+ medicineName
  +:+ dquote +:+ " (salt: " +:+ saltName +:+ "):" +:+ nl
  +:+ nl
  +:+ "IMPORTANT: Return factual price data. Search for:" +:+ nl
  +:+ "1. Branded medicine price from 1mg.com or Apollo Pharmacy" +:+ nl
  +:+ "2. Generic alternatives with prices" +:+ nl
  +:+ "3. At least 5 alternative generic brands with prices" +:+ nl
  +:+ nl
  +:+ "For EACH medicine, provide:" +:+ nl
  +:+ "- Name" +:+ nl
  +:+ "- Price in INR (₹)" +:+ nl
  +:+ "- Source (1mg, Apollo, Jan Aushadhi, etc.)" +:+ nl
  +:+ nl
  +:+ "Format the prices clearly in INR (₹). Include per-tablet and per-strip prices where available. Do NOT include purchase links or how to buy information.".

Definition tip_text : string :=
  "Jan Aushadhi Kendras offer the cheapest generic medicines. Find stores at janaushadhi.gov.in or call 1800-180-8080".

(** [result.apiData?.activeIngredient || medicineName] *)
Definition saltName (medicineName : string) (result : Result) : string :=
  or_else (r_apiData result ≫= activeIngredient) medicineName.

Section Tool.
Context (w : World).

(** The body of the first try block.  [result.apiData] is assigned by
    its last statement that can fail to be reached, so a throw leaves
    [result] as it was. *)
Definition step1 (medicineName : string) (result : Result) : M Result :=
  encoded ← lift (encodeURIComponent w medicineName);
  searchResponse ← get w (rxnavDrugsUrl encoded);
  conceptGroup ← lift (drugGroup_conceptGroup searchResponse);
  match conceptGroup with
  | None => mret result
  | Some groups =>
      match target (foldl scan nothingFound groups) with
      | None => mret result
      | Some p =>
          relatedResponse ← get w (rxnavRelatedUrl (RxNav.rxcui p));
          related ← lift (allRelatedGroup_conceptGroup relatedResponse);
          match related with
          | None => mret result
          | Some rgroups =>
              apiResult ← lift (foldlM derive emptyApiResult rgroups);
              mret {| query := query result;
                      r_apiData := Some apiResult;
                      r_indianPrices := r_indianPrices result;
                      r_error := r_error result |}
          end
      end
  end.

(** The body of the second try block. *)
Definition step2 (medicineName : string) (result : Result) : M Result :=
  generated ←
    generate w (searchPrompt medicineName (saltName medicineName result));
  let groundingMetadata := groundingMetadataOf generated in
  sources ← lift (extractSources groundingMetadata);
  mret {| query := query result;
          r_apiData := r_apiData result;
          r_indianPrices :=
            Some (Prices (Grounding.text generated) sources
                    (searchQueriesOf groundingMetadata));
          r_error := r_error result |}.

Definition execute (medicineName : string) : M Payload :=
  let result :=
    {| query := medicineName; r_apiData := None; r_indianPrices := None;
       r_error := None |} in
  result ← try_catch (step1 medicineName result) (λ apiError, mret result);
  result ←
    try_catch (step2 medicineName result)
      (λ searchError,
         mret {| query := query result;
                 r_apiData := r_apiData result;
                 r_indianPrices := Some (PricesError (message searchError));
                 r_error := r_error result |});
  mret {| success := true;
          medicine := medicineName;
          apiData := r_apiData result;
          indianPrices := r_indianPrices result;
          tip := tip_text |}.
End Tool.
End findGenericWithPrices.

(** ** Tool 5: web_search_medicine *)

Module webSearchMedicine.
Inductive Payload : Type :=
| Found (searchQuery result : string) (sources : list Source)
        (searchQueries : list string)
| Failed (error suggestion : string).

Definition prompt (searchQuery : string) : string :=
  "Search for: " +:+ searchQuery +:+ nl
  +:+ "        " +:+ nl
  +:+ "Please provide accurate, up-to-date information about:" +:+ nl
  +:+ "1. Medicine prices (if asked)" +:+ nl
  +:+ "2. Comparison between generic and branded prices" +:+ nl
  +:+ "3. Any relevant warnings or information" +:+ nl
  +:+ nl
  +:+ "Focus on helping people find affordable medicine options. Do NOT include purchase links or how to buy information.".

(** [groundingChunks.filter(chunk => chunk.web).map(...)], without a cap. *)
Definition sourcesInfo (gm : option Grounding.GroundingMetadata)
  : Completion (list Source) :=
  match gm ≫= Grounding.groundingChunks with
  | Some chunks => mapM toSource (withWeb chunks)
  | None => Normal []
  end.

Section Tool.
Context (w : World).

Definition body (searchQuery : string) : M Payload :=
  generated ← generate w (prompt searchQuery);
  let groundingMetadata := groundingMetadataOf generated in
  sources ← lift (sourcesInfo groundingMetadata);
  mret (Found searchQuery (Grounding.text generated) sources
          (searchQueriesOf groundingMetadata)).

Definition execute (searchQuery : string) : M Payload :=
  try_catch (body searchQuery)
    (λ error,
       mret (Failed (message error)
               "Try rephrasing your search query or check your internet connection.")).
End Tool.
End webSearchMedicine.

(** ** Tool 6: search_india_medicine *)

Module searchIndiaMedicine.
Inductive Payload : Type :=
| Found (medicine country result : string) (sources : list Source)
        (tip : string)
| Failed (error : string).

Definition searchPrompt (medicineName : string) : string :=
  "Search for information about " +:+ dquote +:+ medicineName +:+ dquote
  +:+ " medicine in India:" +:+ nl
  +:+ nl
  +:+ "1. What is the generic name and salt composition?" +:+ nl
  +:+ "2. What is the approximate price range for generic vs branded versions in India?" +:+ nl
  +:+ "3. Is it available at Jan Aushadhi Kendras (government generic medicine stores)?" +:+ nl
  +:+ "4. What are the popular generic brands available in India?" +:+ nl
  +:+ "5. Any important information patients should know?" +:+ nl
  +:+ nl
  +:+ "Focus on helping Indian patients find affordable generic alternatives. Include specific Indian brand names and prices in INR if available.".

Definition sourcesInfo (gm : option Grounding.GroundingMetadata)
  : Completion (list Source) :=
  match gm ≫= Grounding.groundingChunks with
  | Some chunks => mapM toSource (take 5 (withWeb chunks))
  | None => Normal []
  end.

Section Tool.
Context (w : World).

Definition body (medicineName : string) : M Payload :=
  generated ← generate w (searchPrompt medicineName);
  let groundingMetadata := groundingMetadataOf generated in
  sources ← lift (sourcesInfo groundingMetadata);
  mret (Found medicineName "India" (Grounding.text generated) sources
          "Visit your nearest Jan Aushadhi Kendra for the cheapest generic medicines. Find stores at: janaushadhi.gov.in").

Definition execute (medicineName : string) : M Payload :=
  try_catch (body medicineName) (λ error, mret (Failed (message error))).
End Tool.
End searchIndiaMedicine.

(** ** The orchestrator's entry point and the HTTP handler *)

(** [async function main(query = "")]: a missing argument takes the default;
    a falsy query returns undefined without running the agent; otherwise the
    query is interpolated into the banner that is logged, the agent is run
    and its final output is returned. *)
Definition main (w : World) (query : JsValue) : M JsValue :=
  let query :=
    match query with
    | JsUndefined => JsString EmptyString
    | _ => query
    end in
  if negb (truthy query) then mret JsUndefined
  else
    _ ← lift (templateLiteral query);
    finalOutput ← run_agent w query;
    mret finalOutput.

Module server.
(** The bodies the handler sends. *)
Inductive Body : Type :=
| ErrorBody (error : string)                     (* { error } *)
| ResultBody (success : bool) (result : JsValue) (* { success, result } *)
| FailureBody (success : bool) (error : string). (* { success, error } *)

Record Response : Type := { status : nat; json : Body }.

(** [app.post("/api/search", ...)]; [body] is [req.body], the object
    parsed by express.json().  The query is interpolated into the two
    messages logged before and after the call of [main], inside the try. *)
Definition postApiSearch (w : World) (body : gmap string JsValue)
  : M Response :=
  try_catch
    (let query := default JsUndefined (body !! "query") in
     if negb (truthy query) then
       mret {| status := 400; json := ErrorBody "Query is required" |}
     else
       _ ← lift (templateLiteral query);
       result ← main w query;
       _ ← lift (templateLiteral query);
       mret {| status := 200; json := ResultBody true result |})
    (λ error,
       mret {| status := 500;
               json := FailureBody false
                         "Failed to process your request. Please try again." |}).
End server.

(** ** The command line of med_tool.js *)

(** [process.argv[1]?.includes('med_tool.js')] *)
Definition isMainModule (argv : list string) : bool :=
  match argv !! 1 with
  | Some script => includes "med_tool.js" script
  | None => false
  end.

Definition defaultQuery : string :=
  "Doctor prescribed Lipitor 20mg for cholesterol. What's the generic?".

(** The statements run when the module is loaded: [main] is called on the
    arguments joined by a space, or on the default query when there is none;
    nothing is run when the module is imported. *)
Definition moduleLoad (w : World) (argv : list string) : M JsValue :=
  if isMainModule argv then
    let args := drop 2 argv in
    if bool_decide (0 < length args) then
      main w (JsString (String.concat " " args))
    else main w (JsString defaultQuery)
  else mret JsUndefined.

(** ** What the loops compute *)

(** The concepts of the groups of type [ty], in upstream order. *)
Definition conceptsOf (ty : string) (groups : list RxNav.ConceptGroup)
  : list RxNav.Concept :=
  groups ≫= λ group,
    if decide (RxNav.tty group = ty)
    then default [] (RxNav.conceptProperties group)
    else [].

(** The first concept of the first group of type [ty] that has one. *)
Definition firstConcept (ty : string) (groups : list RxNav.ConceptGroup)
  : option RxNav.Concept :=
  head (conceptsOf ty groups).

(** The citations as a total function: the chunks with a [web] property, in
    order, the first [cap] of them. *)
Definition citations (cap : nat) (chunks : list Grounding.Chunk) : list Source :=
  (λ web, {| title := Grounding.title web; url := Grounding.uri web |})
    <$> take cap (omap Grounding.web chunks).

(** The local [result] as find_generic_with_prices initialises it. *)
Definition initialResult (medicineName : string) : findGenericWithPrices.Result :=
  {| findGenericWithPrices.query := medicineName;
     findGenericWithPrices.r_apiData := None;
     findGenericWithPrices.r_indianPrices := None;
     findGenericWithPrices.r_error := None |}.

(** The vocabulary step: the first try block run on the initial [result]. *)
Definition vocabularyStep (w : World) (medicineName : string)
  : M findGenericWithPrices.Result :=
  findGenericWithPrices.step1 w medicineName (initialResult medicineName).

(** What the first try block of find_generic_with_prices leaves in
    [result.apiData]: the value its body assigns, null when it throws. *)
Definition vocabulary (w : World) (medicineName : string)
  : option findGenericWithPrices.ApiResult :=
  match completion (vocabularyStep w medicineName) with
  | Normal result => findGenericWithPrices.r_apiData result
  | Thrown _ => None
  end.

(** search_medicine: the entries of one group. *)
Definition entriesOf (group : RxNav.ConceptGroup) : list searchMedicine.Entry :=
  searchMedicine.entry group <$> default [] (RxNav.conceptProperties group).

(** get_available_dosages: the formulations of one group. *)
Definition formulationsOf (group : RxNav.ConceptGroup)
  : list getAvailableDosages.Formulation :=
  if decide (RxNav.tty group = "SCD") then
    getAvailableDosages.formulation
      <$> filter (λ drug, includes " / " (RxNav.name drug) = false)
            (default [] (RxNav.conceptProperties group))
  else [].

(** The citations of find_generic_with_prices for the metadata [gm]. *)
Definition sourcesOf (gm : option Grounding.GroundingMetadata) : list Source :=
  match gm ≫= Grounding.groundingChunks with
  | Some chunks => citations 5 chunks
  | None => []
  end.

(** What the second try block of find_generic_with_prices leaves in
    [result.indianPrices] when [result.apiData] holds [api]. *)
Definition priceOutcome (w : World) (medicineName : string)
    (api : option findGenericWithPrices.ApiResult)
  : findGenericWithPrices.IndianPrices :=
  let salt := or_else (api ≫= findGenericWithPrices.activeIngredient) medicineName in
  match generateText w (findGenericWithPrices.searchPrompt medicineName salt) with
  | Normal generated =>
      findGenericWithPrices.Prices (Grounding.text generated)
        (sourcesOf (groundingMetadataOf generated))
        (searchQueriesOf (groundingMetadataOf generated))
  | Thrown e => findGenericWithPrices.PricesError (message e)
  end.

(** The prompt of the price search issued by find_generic_with_prices. *)
Definition pricePrompt (w : World) (medicineName : string) : string :=
  findGenericWithPrices.searchPrompt medicineName
    (or_else (vocabulary w medicineName ≫= findGenericWithPrices.activeIngredient)
       medicineName).

(** The name search as the tools issue it: the encoded name, the request,
    and the read of [drugGroup?.conceptGroup]. *)
Definition nameSearch (w : World) (medicineName : string)
  : Completion (option (list RxNav.ConceptGroup)) :=
  encoded ← encodeURIComponent w medicineName;
  response ← axios_get w (rxnavDrugsUrl encoded);
  drugGroup_conceptGroup response.

(** The concept groups the name search yielded, none when it failed or
    returned no [conceptGroup]. *)
Definition yielded (w : World) (medicineName : string)
  : list RxNav.ConceptGroup :=
  match nameSearch w medicineName with
  | Normal (Some groups) => groups
  | _ => []
  end.

(** The formulation concept of the name search: the generic one when there
    is one, the branded one otherwise. *)
Definition formulation (w : World) (medicineName : string)
  : option RxNav.Concept :=
  match firstConcept "SCD" (yielded w medicineName) with
  | Some p => Some p
  | None => firstConcept "SBD" (yielded w medicineName)
  end.

(** The groups of the related-concepts response for the formulation
    concept. *)
Definition relatedConcepts (w : World) (medicineName : string)
  : option (list RxNav.ConceptGroup) :=
  p ← formulation w medicineName;
  match axios_get w (rxnavRelatedUrl (RxNav.rxcui p))
        ≫= allRelatedGroup_conceptGroup with
  | Normal (Some rgroups) => Some rgroups
  | _ => None
  end.

(** The [sources] of a find_generic_with_prices payload. *)
Definition sourcesIn (p : findGenericWithPrices.Payload) : list Source :=
  match findGenericWithPrices.indianPrices p with
  | Some (findGenericWithPrices.Prices _ sources _) => sources
  | _ => []
  end.








(** ** What the other tools' loops compute *)

(** The [conceptProperties] of the last group of type [ty] that has the
    property. *)
Definition lastProps (ty : string) (groups : list RxNav.ConceptGroup)
  : option (list RxNav.Concept) :=
  last (omap (λ group,
                if decide (RxNav.tty group = ty)
                then RxNav.conceptProperties group else None) groups).

(** [props.map(f)] on a [conceptProperties] that may be absent. *)
Definition mapProps {B} (f : RxNav.Concept → B)
    (props : option (list RxNav.Concept)) : option (list B) :=
  match props with
  | Some props => Some (f <$> props)
  | None => None
  end.

(** A group find_generic_equivalent stops at: it has [conceptProperties]
    and its type is SCD or SBD. *)
Definition isFormulationGroup (group : RxNav.ConceptGroup) : Prop :=
  is_Some (RxNav.conceptProperties group)
  ∧ (RxNav.tty group = "SCD" ∨ RxNav.tty group = "SBD").

#[global] Instance isFormulationGroup_dec group :
  Decision (isFormulationGroup group).
Proof. unfold isFormulationGroup. apply _. Defined.

(** A group whose [conceptProperties] holds no concept. *)
Definition holdsNothing (group : RxNav.ConceptGroup) : Prop :=
  RxNav.conceptProperties group = None ∨ RxNav.conceptProperties group = Some [].



(** The name search returns no concept group: the response carries no
    conceptGroup, or an empty one. *)
Definition noConceptGroups (w : World) (medicineName : string) : Prop :=
  nameSearch w medicineName = Normal None
  ∨ nameSearch w medicineName = Normal (Some []).

(** The kinds of outbound calls. *)
Definition isGenerate (ev : Event) : bool :=
  match ev with
  | EvGenerate _ => true
  | _ => false
  end.

Definition isGet (ev : Event) : bool :=
  match ev with
  | EvGet _ => true
  | _ => false
  end.

(** [p] is the first concept of the first group of type [ty] that holds a
    concept: the groups of that type before it hold none. *)
Definition FirstOf (ty : string) (groups : list RxNav.ConceptGroup)
    (p : RxNav.Concept) : Prop :=
  ∃ before group after props,
    groups = before ++ group :: after
    ∧ RxNav.tty group = ty
    ∧ RxNav.conceptProperties group = Some (p :: props)
    ∧ Forall (λ g, RxNav.tty g = ty → holdsNothing g) before.

(** A group of the related concepts on which the derivation throws: its
    first concept's name is read and its array is empty. *)
Definition emptyNamedGroup (group : RxNav.ConceptGroup) : Prop :=
  RxNav.conceptProperties group = Some []
  ∧ (RxNav.tty group = "IN" ∨ RxNav.tty group = "SCD" ∨ RxNav.tty group = "DF").

(** The character [c] occurs in [s]. *)
Fixpoint hasChar (c : Ascii.ascii) (s : string) : bool :=
  match s with
  | EmptyString => false
  | String a s' => bool_decide (a = c) || hasChar c s'
  end.

Definition lbracket : Ascii.ascii := Ascii.ascii_of_nat 91.
Definition rbracket : Ascii.ascii := Ascii.ascii_of_nat 93.

(** ** Concrete worlds *)

Module Examples.
Definition hexDigit (n : nat) : Ascii.ascii :=
  Ascii.ascii_of_nat (if Nat.ltb n 10 then 48 + n else 55 + n).

Definition unreserved (a : Ascii.ascii) : bool :=
  let n := Ascii.nat_of_ascii a in
  (Nat.leb 48 n && Nat.leb n 57) || (Nat.leb 65 n && Nat.leb n 90)
  || (Nat.leb 97 n && Nat.leb n 122)
  || bool_decide (n ∈ [45; 95; 46; 33; 126; 42; 39; 40; 41]).

(** encodeURIComponent on a string held as its UTF-8 bytes. *)
Fixpoint percentEncode (s : string) : string :=
  match s with
  | EmptyString => EmptyString
  | String a s' =>
      if unreserved a then String a (percentEncode s')
      else
        let n := Ascii.nat_of_ascii a in
        String (Ascii.ascii_of_nat 37)
          (String (hexDigit (n / 16))
             (String (hexDigit (n mod 16)) (percentEncode s')))
  end.

Definition concept (id nm : string) : RxNav.Concept :=
  {| RxNav.rxcui := id; RxNav.name := nm |}.
Definition group (ty : string) (props : list RxNav.Concept)
  : RxNav.ConceptGroup :=
  {| RxNav.tty := ty; RxNav.conceptProperties := Some props |}.
Definition bare (ty : string) : RxNav.ConceptGroup :=
  {| RxNav.tty := ty; RxNav.conceptProperties := None |}.
Definition drugs (groups : option (list RxNav.ConceptGroup)) : RxNav.Response :=
  {| RxNav.data :=
       Some {| RxNav.drugGroup := Some {| RxNav.conceptGroup := groups |};
               RxNav.allRelatedGroup := None |} |}.
Definition related (groups : list RxNav.ConceptGroup) : RxNav.Response :=
  {| RxNav.data :=
       Some {| RxNav.drugGroup := None;
               RxNav.allRelatedGroup :=
                 Some {| RxNav.conceptGroup := Some groups |} |} |}.

Definition notFound404 : JsError :=
  {| kind := AxiosError; message := "Request failed with status code 404" |}.
Definition timeout5000 : JsError :=
  {| kind := AxiosError; message := "timeout of 5000ms exceeded" |}.
Definition quota : JsError :=
  {| kind := AIError; message := "Resource has been exhausted" |}.

(** The name search for Lipitor 20mg. *)
Definition lipitorSearch : list RxNav.ConceptGroup :=
  [ bare "BPCK";
    group "IN" [concept "83367" "atorvastatin"];
    group "SBD" [concept "617320" "atorvastatin 20 MG Oral Tablet [Lipitor]";
                 concept "617318" "atorvastatin 40 MG Oral Tablet [Lipitor]"];
    group "SCD" [concept "617310" "atorvastatin 20 MG Oral Tablet";
                 concept "617311" "atorvastatin 40 MG Oral Tablet"] ].

Definition lipitorRelated : list RxNav.ConceptGroup :=
  [ group "BN" [concept "153165" "Lipitor"; concept "2001262" "Atorvaliq";
                concept "1" "Brand C"; concept "2" "Brand D";
                concept "3" "Brand E"; concept "4" "Brand F"];
    group "DF" [concept "317541" "Oral Tablet"];
    group "IN" [concept "83367" "atorvastatin"];
    bare "MIN";
    group "SBD" [concept "617320" "atorvastatin 20 MG Oral Tablet [Lipitor]"];
    group "SCD" [concept "617310" "atorvastatin 20 MG Oral Tablet"] ].

Definition chunk (t u : string) : Grounding.Chunk :=
  {| Grounding.web := Some {| Grounding.title := t; Grounding.uri := u |} |}.
Definition chunkWithoutWeb : Grounding.Chunk := {| Grounding.web := None |}.

Definition sevenChunks : list Grounding.Chunk :=
  [ chunk "1mg" "https://a.example/1"; chunkWithoutWeb;
    chunk "apollo" "https://a.example/2"; chunk "netmeds" "https://a.example/3";
    chunk "pharmeasy" "https://a.example/4"; chunkWithoutWeb;
    chunk "janaushadhi" "https://a.example/5";
    chunk "truemeds" "https://a.example/6" ].

Definition grounded (t : string) (chunks : list Grounding.Chunk)
  : Grounding.Generated :=
  {| Grounding.text := t;
     Grounding.providerMetadata :=
       Some {| Grounding.google :=
                 Some {| Grounding.groundingMetadata :=
                           Some {| Grounding.groundingChunks := Some chunks;
                                   Grounding.webSearchQueries :=
                                     Some ["atorvastatin 20mg price India"] |} |} |} |}.

(** Both services answer. *)
Definition lipitorWorld : World :=
  {| encodeURIComponent := λ s, Normal (percentEncode s);
     axios_get := λ u,
       if decide (u = rxnavDrugsUrl "Lipitor%2020mg") then
         Normal (drugs (Some lipitorSearch))
       else if decide (u = rxnavRelatedUrl "617310") then
         Normal (related lipitorRelated)
       else Thrown notFound404;
     generateText := λ _, Normal (grounded "Lipitor 20mg: Rs 150 per strip" sevenChunks);
     run := λ _, Normal (JsString "Buy the generic atorvastatin.") |}.

(** The vocabulary service times out; the generation service answers. *)
Definition rxnavDown : World :=
  {| encodeURIComponent := λ s, Normal (percentEncode s);
     axios_get := λ _, Thrown timeout5000;
     generateText := λ _, Normal (grounded "Lipitor 20mg: Rs 150 per strip" sevenChunks);
     run := λ _, Normal (JsString "Buy the generic atorvastatin.") |}.

(** The vocabulary service answers; the generation service fails. *)
Definition geminiDown : World :=
  {| encodeURIComponent := encodeURIComponent lipitorWorld;
     axios_get := axios_get lipitorWorld;
     generateText := λ _, Thrown quota;
     run := run lipitorWorld |}.

(** Both services fail. *)
Definition allDown : World :=
  {| encodeURIComponent := λ s, Normal (percentEncode s);
     axios_get := λ _, Thrown timeout5000;
     generateText := λ _, Thrown quota;
     run := λ _, Thrown {| kind := AgentError; message := "agent failed" |} |}.

(** The name search finds nothing: drugGroup carries no conceptGroup. *)
Definition unknownWorld : World :=
  {| encodeURIComponent := λ s, Normal (percentEncode s);
     axios_get := λ _, Normal (drugs None);
     generateText := generateText lipitorWorld;
     run := run lipitorWorld |}.

(** The related-concepts answer holds two groups of type IN. *)
Definition twoIngredientGroups : list RxNav.ConceptGroup :=
  [ group "IN" [concept "83367" "atorvastatin"];
    group "SCD" [concept "617310" "atorvastatin 20 MG Oral Tablet"];
    group "IN" [concept "17767" "amlodipine"] ].

Definition twoGroupsWorld : World :=
  {| encodeURIComponent := λ s, Normal (percentEncode s);
     axios_get := λ u,
       if decide (u = rxnavDrugsUrl "Lipitor%2020mg") then
         Normal (drugs (Some lipitorSearch))
       else Normal (related twoIngredientGroups);
     generateText := generateText lipitorWorld;
     run := run lipitorWorld |}.

(** Twelve concepts in two groups, and a combination drug. *)
Definition manyConcepts : list RxNav.ConceptGroup :=
  [ group "SBD" (concept "900" <$> ["Brand 1"; "Brand 2"; "Brand 3"; "Brand 4";
                                    "Brand 5"; "Brand 6"; "Brand 7"]);
    bare "BN";
    group "SCD" [concept "100" "acetaminophen 500 MG Oral Tablet";
                 concept "101" "acetaminophen 325 MG / ibuprofen 200 MG Oral Tablet";
                 concept "102" "acetaminophen 650 MG Oral Tablet";
                 concept "103" "acetaminophen 80 MG Chewable Tablet";
                 concept "104" "acetaminophen 160 MG Oral Capsule"] ].

Definition manyWorld : World :=
  {| encodeURIComponent := λ s, Normal (percentEncode s);
     axios_get := λ _, Normal (drugs (Some manyConcepts));
     generateText := generateText lipitorWorld;
     run := run lipitorWorld |}.
(** The branded group comes first in the name search. *)
Definition brandedFirst : list RxNav.ConceptGroup :=
  [ group "SBD" [concept "617320" "atorvastatin 20 MG Oral Tablet [Lipitor]"];
    group "SCD" [concept "617310" "atorvastatin 20 MG Oral Tablet"] ].

Definition brandedFirstWorld : World :=
  {| encodeURIComponent := λ s, Normal (percentEncode s);
     axios_get := λ u,
       if decide (u = rxnavDrugsUrl "Lipitor") then
         Normal (drugs (Some brandedFirst))
       else Normal (related lipitorRelated);
     generateText := generateText lipitorWorld;
     run := run lipitorWorld |}.

(** The first formulation group holds an empty array. *)
Definition emptyFirst : list RxNav.ConceptGroup :=
  [ group "SCD" []; group "SBD" [concept "617320" "atorvastatin 20 MG Oral Tablet [Lipitor]"] ].

Definition emptyFirstWorld : World :=
  {| encodeURIComponent := λ s, Normal (percentEncode s);
     axios_get := λ u,
       if decide (u = rxnavDrugsUrl "Lipitor") then
         Normal (drugs (Some emptyFirst))
       else Normal (related lipitorRelated);
     generateText := generateText lipitorWorld;
     run := run lipitorWorld |}.

(** The related concepts hold an empty dose-form group. *)
Definition emptyDoseForm : list RxNav.ConceptGroup :=
  [ group "IN" [concept "83367" "atorvastatin"]; group "DF" [] ].

Definition emptyDoseFormWorld : World :=
  {| encodeURIComponent := λ s, Normal (percentEncode s);
     axios_get := λ u,
       if decide (u = rxnavDrugsUrl "Lipitor%2020mg") then
         Normal (drugs (Some lipitorSearch))
       else Normal (related emptyDoseForm);
     generateText := generateText lipitorWorld;
     run := run lipitorWorld |}.

(** The name search answers with groups that hold no concept. *)
Definition hollowWorld : World :=
  {| encodeURIComponent := λ s, Normal (percentEncode s);
     axios_get := λ _, Normal (drugs (Some [bare "SCD"; group "SBD" []]));
     generateText := generateText lipitorWorld;
     run := run lipitorWorld |}.
(** The name search answers with an empty conceptGroup array. *)
Definition emptyArrayWorld : World :=
  {| encodeURIComponent := λ s, Normal (percentEncode s);
     axios_get := λ _, Normal (drugs (Some []));
     generateText := generateText lipitorWorld;
     run := run lipitorWorld |}.
End Examples.

Example lipitor_payload :
  completion (findGenericWithPrices.execute Examples.lipitorWorld "Lipitor 20mg")
  = Normal
      {| findGenericWithPrices.success := true;
         findGenericWithPrices.medicine := "Lipitor 20mg";
         findGenericWithPrices.apiData :=
           Some {| findGenericWithPrices.genericName :=
                     Some "atorvastatin 20 MG Oral Tablet";
                   findGenericWithPrices.brandNames :=
                     ["Lipitor"; "Atorvaliq"; "Brand C"; "Brand D"; "Brand E"];
                   findGenericWithPrices.activeIngredient := Some "atorvastatin";
                   findGenericWithPrices.dosageForm := Some "Oral Tablet" |};
         findGenericWithPrices.indianPrices :=
           Some (findGenericWithPrices.Prices "Lipitor 20mg: Rs 150 per strip"
                   [ {| title := "1mg"; url := "https://a.example/1" |};
                     {| title := "apollo"; url := "https://a.example/2" |};
                     {| title := "netmeds"; url := "https://a.example/3" |};
                     {| title := "pharmeasy"; url := "https://a.example/4" |};
                     {| title := "janaushadhi"; url := "https://a.example/5" |} ]
                   ["atorvastatin 20mg price India"]);
         findGenericWithPrices.tip := findGenericWithPrices.tip_text |}.
Proof. vm_compute. reflexivity. Qed.

(** * Properties *)

(** ** Strings *)

Lemma append_nil (s : string) : EmptyString +:+ s = s.
Proof. reflexivity. Qed.
Lemma append_cons (a : Ascii.ascii) (s t : string) :
  String a s +:+ t = String a (s +:+ t).
Proof. reflexivity. Qed.

Lemma prefix_append (sub s : string) :
  String.prefix sub s = true ↔ ∃ post, s = sub +:+ post.
Proof.
  revert s. induction sub as [|a sub IH]; intros s.
  - split; [intros _; by exists s | by destruct s].
  - setoid_rewrite append_cons. destruct s as [|b s]; cbn.
    + split; [done | intros [post H]; discriminate].
    + destruct (Ascii.ascii_dec a b) as [->|Hne].
      * rewrite IH. split; intros [post H]; exists post; congruence.
      * split; [done | intros [post H]; congruence].
Qed.

(** [includes sub s] holds exactly when [sub] occurs in [s]. *)
Lemma includes_occurs (sub s : string) :
  includes sub s = true ↔ ∃ pre post, s = pre +:+ sub +:+ post.
Proof.
  induction s as [|a s IH].
  - cbn [includes]. rewrite orb_false_r, prefix_append. split.
    + intros [post H]. by exists EmptyString, post.
    + intros [pre [post H]]. destruct pre; [by exists post | done].
  - cbn [includes]. rewrite orb_true_iff, prefix_append, IH. split.
    + intros [[post H] | [pre [post H]]].
      * by exists EmptyString, post.
      * exists (String a pre), post. by rewrite append_cons, H.
    + intros [pre [post H]]. destruct pre as [|b pre].
      * left. by exists post.
      * right. exists pre, post. rewrite append_cons in H. congruence.
Qed.

(** ** The loops as list functions *)

Lemma foldl_snoc_map {A B} (f : A → B) (acc : list B) (l : list A) :
  foldl (λ acc x, acc ++ [f x]) acc l = acc ++ (f <$> l).
Proof.
  revert acc. induction l as [|x l IH]; intros acc; simpl.
  - by rewrite app_nil_r.
  - by rewrite IH, <- app_assoc.
Qed.

Lemma searchMedicine_push_group acc group :
  searchMedicine.push_group acc group = acc ++ entriesOf group.
Proof.
  unfold searchMedicine.push_group, entriesOf.
  destruct (RxNav.conceptProperties group) as [props|]; simpl.
  - apply foldl_snoc_map.
  - by rewrite app_nil_r.
Qed.

(** The results array lists every concept, group after group, concept after
    concept. *)
Lemma searchMedicine_collect groups :
  searchMedicine.collect groups = groups ≫= entriesOf.
Proof.
  unfold searchMedicine.collect.
  enough (∀ acc, foldl searchMedicine.push_group acc groups
                 = acc ++ (groups ≫= entriesOf)) as H by apply (H []).
  induction groups as [|g groups IH]; intros acc; simpl.
  - by rewrite app_nil_r.
  - rewrite IH, searchMedicine_push_group. by rewrite <- app_assoc.
Qed.

Lemma getAvailableDosages_push_drugs acc props :
  foldl getAvailableDosages.push_drug acc props
  = acc ++ (getAvailableDosages.formulation
              <$> filter (λ drug, includes " / " (RxNav.name drug) = false) props).
Proof.
  revert acc. induction props as [|p props IH]; intros acc; simpl.
  - by rewrite app_nil_r.
  - rewrite IH. unfold getAvailableDosages.push_drug.
    rewrite filter_cons.
    destruct (includes " / " (RxNav.name p)) eqn:E.
    + by rewrite decide_False.
    + rewrite decide_True by done. by rewrite fmap_cons, <- app_assoc.
Qed.

Lemma getAvailableDosages_push_group acc group :
  getAvailableDosages.push_group acc group = acc ++ formulationsOf group.
Proof.
  unfold getAvailableDosages.push_group, formulationsOf.
  destruct (decide (RxNav.tty group = "SCD")); [|by rewrite app_nil_r].
  destruct (RxNav.conceptProperties group) as [props|]; simpl.
  - apply getAvailableDosages_push_drugs.
  - by rewrite app_nil_r.
Qed.

(** The formulations array lists, group after group, the concepts of the SCD
    groups whose name does not include " / ". *)
Lemma getAvailableDosages_collect groups :
  getAvailableDosages.collect groups = groups ≫= formulationsOf.
Proof.
  unfold getAvailableDosages.collect.
  enough (∀ acc, foldl getAvailableDosages.push_group acc groups
                 = acc ++ (groups ≫= formulationsOf)) as H by apply (H []).
  induction groups as [|g groups IH]; intros acc; simpl.
  - by rewrite app_nil_r.
  - rewrite IH, getAvailableDosages_push_group. by rewrite <- app_assoc.
Qed.

(** ** Citations *)

(** The chunks kept by the filter all have a [web] property, so the map
    never throws, and the three array methods compute [citations]. *)
Lemma mapM_toSource_take (cap : nat) (chunks : list Grounding.Chunk) :
  mapM toSource (take cap (withWeb chunks)) = Normal (citations cap chunks).
Proof.
  unfold withWeb, citations. revert cap.
  induction chunks as [|c chunks IH]; intros cap.
  - by destruct cap.
  - rewrite filter_cons. destruct c as [[web|]]; simpl.
    + destruct cap as [|cap]; [done|]. simpl.
      unfold toSource at 1. simpl. rewrite IH. done.
    + apply IH.
Qed.

Lemma extractSources_total (gm : option Grounding.GroundingMetadata) :
  findGenericWithPrices.extractSources gm = Normal (sourcesOf gm).
Proof.
  unfold findGenericWithPrices.extractSources, sourcesOf.
  destruct (gm ≫= Grounding.groundingChunks); [apply mapM_toSource_take | done].
Qed.

Lemma citations_length (cap : nat) (chunks : list Grounding.Chunk) :
  length (citations cap chunks) ≤ cap.
Proof.
  unfold citations. rewrite length_fmap, length_take. lia.
Qed.

Lemma mapM_toSource_all (chunks : list Grounding.Chunk) :
  mapM toSource (withWeb chunks) = Normal (citations (length chunks) chunks).
Proof.
  rewrite <- mapM_toSource_take. f_equal. symmetry. apply take_ge.
  unfold withWeb. apply length_filter.
Qed.

(** ** The scan of the name search *)

Lemma firstConcept_cons ty group groups :
  firstConcept ty (group :: groups)
  = match (if decide (RxNav.tty group = ty)
           then head (default [] (RxNav.conceptProperties group)) else None) with
    | Some p => Some p
    | None => firstConcept ty groups
    end.
Proof.
  unfold firstConcept, conceptsOf. simpl.
  destruct (decide (RxNav.tty group = ty)); [|done].
  by destruct (default [] (RxNav.conceptProperties group)).
Qed.

(** Each local keeps the first concept met for its type. *)
Lemma scan_first_wins found groups :
  foldl findGenericWithPrices.scan found groups
  = {| findGenericWithPrices.genericDrug :=
         match findGenericWithPrices.genericDrug found with
         | Some p => Some p
         | None => firstConcept "SCD" groups
         end;
       findGenericWithPrices.brandedDrug :=
         match findGenericWithPrices.brandedDrug found with
         | Some p => Some p
         | None => firstConcept "SBD" groups
         end;
       findGenericWithPrices.ingredient :=
         match findGenericWithPrices.ingredient found with
         | Some p => Some p
         | None => firstConcept "IN" groups
         end |}.
Proof.
  revert found. induction groups as [|g groups IH]; intros [gd bd ing].
  - by destruct gd, bd, ing.
  - cbn [foldl]. rewrite IH. rewrite !firstConcept_cons.
    unfold findGenericWithPrices.scan.
    destruct g as [tty [props|]]; cbn [RxNav.tty RxNav.conceptProperties default].
    + destruct (decide (tty = "SCD")) as [->|H1];
      [| destruct (decide (tty = "SBD")) as [->|H2];
         [| destruct (decide (tty = "IN")) as [->|H3] ] ];
      destruct gd, bd, ing; simpl;
      repeat (rewrite ?bool_decide_eq_false_2, ?decide_False by done; simpl);
      try done;
      by destruct (head props).
    + repeat case_decide; by destruct gd, bd, ing.
Qed.

Lemma scan_nothingFound groups :
  foldl findGenericWithPrices.scan findGenericWithPrices.nothingFound groups
  = {| findGenericWithPrices.genericDrug := firstConcept "SCD" groups;
       findGenericWithPrices.brandedDrug := firstConcept "SBD" groups;
       findGenericWithPrices.ingredient := firstConcept "IN" groups |}.
Proof. by rewrite scan_first_wins. Qed.

(** A first concept of type [ty] is the first element of the
    [conceptProperties] of a group of that type. *)
Lemma firstConcept_Some ty groups p :
  firstConcept ty groups = Some p →
  ∃ group props, group ∈ groups ∧ RxNav.tty group = ty
    ∧ RxNav.conceptProperties group = Some (p :: props).
Proof.
  induction groups as [|g groups IH]; [done|].
  rewrite firstConcept_cons.
  destruct (decide (RxNav.tty g = ty)) as [Hty|_].
  - destruct (RxNav.conceptProperties g) as [[|q props]|] eqn:E; simpl.
    + intros H. destruct (IH H) as (g' & ps & ? & ? & ?).
      exists g', ps. split_and!; [by right | done | done].
    + intros [= ->]. exists g, props. split_and!; [by left | done | done].
    + intros H. destruct (IH H) as (g' & ps & ? & ? & ?).
      exists g', ps. split_and!; [by right | done | done].
  - intros H. destruct (IH H) as (g' & ps & ? & ? & ?).
    exists g', ps. split_and!; [by right | done | done].
Qed.

(** No first concept of type [ty]: no group of that type holds a concept. *)
Lemma firstConcept_None ty groups :
  firstConcept ty groups = None ↔
  ∀ group p props, group ∈ groups → RxNav.tty group = ty →
    RxNav.conceptProperties group ≠ Some (p :: props).
Proof.
  induction groups as [|g groups IH].
  - split; [intros _ g p props H; by apply elem_of_nil in H | done].
  - rewrite firstConcept_cons. split.
    + intros H g' p props [->|Hin]%elem_of_cons Hty E.
      * rewrite decide_True, E in H by done. done.
      * destruct (if decide (RxNav.tty g = ty) then _ else _); [done|].
        by eapply IH.
    + intros H.
      assert (firstConcept ty groups = None) as ->.
      { apply IH. intros g' p props Hin. apply H. by right. }
      destruct (decide (RxNav.tty g = ty)) as [Hty|]; [|done].
      destruct (RxNav.conceptProperties g) as [[|q props]|] eqn:E; try done.
      exfalso. by eapply (H g q props); [left | |].
Qed.

(** ** The derivation from the related concepts *)






(** ** find_generic_with_prices as a whole *)

Lemma step2_outcome w medicineName result :
  try_catch (findGenericWithPrices.step2 w medicineName result)
    (λ searchError,
       mret {| findGenericWithPrices.query := findGenericWithPrices.query result;
               findGenericWithPrices.r_apiData :=
                 findGenericWithPrices.r_apiData result;
               findGenericWithPrices.r_indianPrices :=
                 Some (findGenericWithPrices.PricesError (message searchError));
               findGenericWithPrices.r_error :=
                 findGenericWithPrices.r_error result |})
  = (Normal {| findGenericWithPrices.query := findGenericWithPrices.query result;
               findGenericWithPrices.r_apiData :=
                 findGenericWithPrices.r_apiData result;
               findGenericWithPrices.r_indianPrices :=
                 Some (priceOutcome w medicineName
                         (findGenericWithPrices.r_apiData result));
               findGenericWithPrices.r_error :=
                 findGenericWithPrices.r_error result |},
     [EvGenerate
        (findGenericWithPrices.searchPrompt medicineName
           (or_else (findGenericWithPrices.r_apiData result
                       ≫= findGenericWithPrices.activeIngredient)
              medicineName))]).
Proof.
  unfold findGenericWithPrices.step2, priceOutcome, generate,
    findGenericWithPrices.saltName.
  destruct (generateText w _) as [generated|e]; [|done].
  unfold mbind, M_bind, lift. cbn -[findGenericWithPrices.searchPrompt].
  rewrite extractSources_total. done.
Qed.

(** The payload and the outbound calls of every execution. *)
Lemma execute_outcome w medicineName :
  findGenericWithPrices.execute w medicineName
  = (Normal {| findGenericWithPrices.success := true;
               findGenericWithPrices.medicine := medicineName;
               findGenericWithPrices.apiData := vocabulary w medicineName;
               findGenericWithPrices.indianPrices :=
                 Some (priceOutcome w medicineName (vocabulary w medicineName));
               findGenericWithPrices.tip := findGenericWithPrices.tip_text |},
     calls (vocabularyStep w medicineName)
     ++ [EvGenerate (pricePrompt w medicineName)]).
Proof.
  unfold findGenericWithPrices.execute, vocabulary, pricePrompt, vocabulary,
    vocabularyStep, initialResult, completion, calls.
  destruct (findGenericWithPrices.step1 w medicineName _) as [[result|e] t];
    unfold try_catch at 2; unfold mbind at 1, M_bind at 1;
    cbn -[findGenericWithPrices.searchPrompt try_catch findGenericWithPrices.step2];
    rewrite step2_outcome; cbn -[findGenericWithPrices.searchPrompt];
    by rewrite ?app_nil_r.
Qed.

(** ** The tools that only search by name *)

Ltac run_monad :=
  unfold try_catch, mbind, M_bind, Completion_bind, mret, M_ret, lift, get,
    generate, run_agent, completion, calls in *;
  simpl in *.

Lemma searchMedicine_body w medicineName :
  completion (searchMedicine.body w medicineName)
  = (conceptGroup ← nameSearch w medicineName;
     match conceptGroup with
     | None =>
         Normal (searchMedicine.NotFound
                   ("Could not find medicine " +:+ dquote +:+ medicineName
                    +:+ dquote
                    +:+ ". Please check the spelling or try the generic name.")
                   searchMedicine.suggestion_text)
     | Some groups =>
         Normal (searchMedicine.Found medicineName
                   (take 10 (searchMedicine.collect groups))
                   (length (searchMedicine.collect groups)))
     end).
Proof.
  unfold searchMedicine.body, nameSearch. run_monad.
  destruct (encodeURIComponent w medicineName) as [enc|]; [|done]. simpl.
  destruct (axios_get w (rxnavDrugsUrl enc)) as [resp|]; [|done]. simpl.
  destruct (drugGroup_conceptGroup resp) as [[groups|]|]; done.
Qed.

Lemma getAvailableDosages_body w ingredientName :
  completion (getAvailableDosages.body w ingredientName)
  = (conceptGroup ← nameSearch w ingredientName;
     match conceptGroup with
     | None =>
         Normal (getAvailableDosages.NotFound
                   ("Could not find dosages for " +:+ dquote
                    +:+ ingredientName +:+ dquote +:+ "."))
     | Some groups =>
         Normal (getAvailableDosages.Found ingredientName
                   (getAvailableDosages.collect groups)
                   "These are pure generic formulations without combination drugs. Ask your doctor which dosage is right for you.")
     end).
Proof.
  unfold getAvailableDosages.body, nameSearch. run_monad.
  destruct (encodeURIComponent w ingredientName) as [enc|]; [|done]. simpl.
  destruct (axios_get w (rxnavDrugsUrl enc)) as [resp|]; [|done]. simpl.
  destruct (drugGroup_conceptGroup resp) as [[groups|]|]; done.
Qed.

Lemma try_catch_completion {A} (m : M A) (h : JsError → A) :
  completion (try_catch m (λ e, mret (h e)))
  = match completion m with
    | Normal a => Normal a
    | Thrown e => Normal (h e)
    end.
Proof. by destruct m as [[a|e] t]. Qed.

(** C9.  Every successful search_medicine answer lists the first 10 concepts
    in upstream order, group after group and concept after concept, while
    totalFound counts all the concepts found; the count can exceed the length
    of the list. *)
Theorem search_medicine_results_capped :
  (∀ w medicineName term results total,
     completion (searchMedicine.execute w medicineName)
     = Normal (searchMedicine.Found term results total) →
     ∃ groups,
       nameSearch w medicineName = Normal (Some groups)
       ∧ results = take 10 (groups ≫= entriesOf)
       ∧ total = length (groups ≫= entriesOf)
       ∧ length results ≤ 10
       ∧ length results ≤ total)
  ∧ (∃ w medicineName term results total,
       completion (searchMedicine.execute w medicineName)
       = Normal (searchMedicine.Found term results total)
       ∧ length results < total).
Proof.
  split.
  - intros w medicineName term results total.
    unfold searchMedicine.execute.
    rewrite try_catch_completion, searchMedicine_body.
    destruct (nameSearch w medicineName) as [[groups|]|e]; simpl; try done.
    rewrite searchMedicine_collect. intros [= _ <- <-].
    exists groups. split_and!; try done.
    + rewrite length_take. lia.
    + rewrite length_take. lia.
  - exists Examples.manyWorld, "acetaminophen". eexists _, _, _.
    split; [vm_compute; reflexivity|]. vm_compute. lia.
Qed.

Lemma search_medicine_results_capped_witness :
  ∃ groups,
    nameSearch Examples.manyWorld "acetaminophen" = Normal (Some groups)
    ∧ length (take 10 (groups ≫= entriesOf)) ≤ 10
    ∧ length (groups ≫= entriesOf) = 12.
Proof.
  destruct (proj1 search_medicine_results_capped Examples.manyWorld
              "acetaminophen" "acetaminophen"
              (take 10 (mbind (M:=list) entriesOf Examples.manyConcepts)) 12
              eq_refl)
    as (groups & Hsearch & _ & Htotal & Hlen & _).
  exists groups. split_and!; [done | | done].
  injection Hsearch as <-. vm_compute. lia.
Defined.

(** C10.  The availableGenericFormulations list of get_available_dosages
    holds exactly the concepts of the SCD groups whose name does not contain
    " / ": a concept of another group type never gives an entry, and no
    combination drug gives one. *)
Theorem available_dosages_generic_only w ingredientName ingredient forms note :
  completion (getAvailableDosages.execute w ingredientName)
  = Normal (getAvailableDosages.Found ingredient forms note) →
  ∃ groups,
    nameSearch w ingredientName = Normal (Some groups)
    ∧ forms = groups ≫= formulationsOf
    ∧ ∀ f, f ∈ forms ↔
        ∃ group props drug,
          group ∈ groups ∧ RxNav.tty group = "SCD"
          ∧ RxNav.conceptProperties group = Some props ∧ drug ∈ props
          ∧ (¬ ∃ pre post, RxNav.name drug = pre +:+ " / " +:+ post)
          ∧ f = getAvailableDosages.formulation drug.
Proof.
  unfold getAvailableDosages.execute.
  rewrite try_catch_completion, getAvailableDosages_body.
  destruct (nameSearch w ingredientName) as [[groups|]|e]; simpl; try done.
  rewrite getAvailableDosages_collect. intros [= _ <- _].
  exists groups. split_and!; try done.
  intros f. rewrite list_elem_of_bind. split.
  - intros (g & Hf & Hg). unfold formulationsOf in Hf.
    destruct (decide (RxNav.tty g = "SCD")) as [Hty|];
      [|by apply elem_of_nil in Hf].
    apply list_elem_of_fmap in Hf as (drug & -> & Hd).
    apply list_elem_of_filter in Hd as [Hinc Hd].
    destruct (RxNav.conceptProperties g) as [props|] eqn:E;
      [|by apply elem_of_nil in Hd].
    exists g, props, drug. split_and!; try done.
    rewrite <- includes_occurs. by rewrite Hinc.
  - intros (g & props & drug & Hg & Hty & E & Hd & Hinc & ->).
    exists g. split; [|done]. unfold formulationsOf.
    rewrite decide_True, E by done. apply list_elem_of_fmap_2.
    apply list_elem_of_filter. split; [|done].
    rewrite <- includes_occurs in Hinc. by destruct (includes _ _).
Qed.

Lemma available_dosages_generic_only_witness :
  ∃ groups,
    nameSearch Examples.manyWorld "acetaminophen" = Normal (Some groups)
    ∧ getAvailableDosages.name <$> (groups ≫= formulationsOf)
      = ["acetaminophen 500 MG Oral Tablet"; "acetaminophen 650 MG Oral Tablet";
         "acetaminophen 80 MG Chewable Tablet";
         "acetaminophen 160 MG Oral Capsule"].
Proof.
  destruct (available_dosages_generic_only Examples.manyWorld "acetaminophen"
              "acetaminophen"
              (mbind (M:=list) formulationsOf Examples.manyConcepts)
              "These are pure generic formulations without combination drugs. Ask your doctor which dosage is right for you."
              eq_refl)
    as (groups & Hsearch & _ & _).
  exists groups. split; [done|]. injection Hsearch as <-. reflexivity.
Defined.

(** C6 as stated fails: when the name search returns an empty conceptGroup
    array, so no concept group at all, search_medicine does not return the
    not-found result. *)
Lemma search_medicine_empty_array_not_notfound :
  ¬ (∀ w medicineName,
       noConceptGroups w medicineName →
       ∃ message suggestion,
         completion (searchMedicine.execute w medicineName)
         = Normal (searchMedicine.NotFound message suggestion)
         ∧ suggestion ≠ EmptyString).
Proof.
  intros H.
  destruct (H Examples.emptyArrayWorld "Crocin") as (message & suggestion & Hp & _).
  - right. reflexivity.
  - vm_compute in Hp. discriminate Hp.
Qed.

(** C6, amended.  search_medicine never throws.  When the response of the
    name search carries no conceptGroup property it returns the not-found
    result, whose suggestion is a non-empty string that lists common name
    mappings, Paracetamol=Acetaminophen among them.  When conceptGroup is
    present but an empty array, it returns success true with an empty
    results list and totalFound 0. *)
Theorem search_medicine_not_found w medicineName :
  (∃ payload, completion (searchMedicine.execute w medicineName) = Normal payload)
  ∧ (nameSearch w medicineName = Normal None →
     ∃ message suggestion,
       completion (searchMedicine.execute w medicineName)
       = Normal (searchMedicine.NotFound message suggestion)
       ∧ suggestion ≠ EmptyString
       ∧ includes "Paracetamol=Acetaminophen" suggestion = true
       ∧ searchMedicine.success
           (searchMedicine.NotFound message suggestion) = false)
  ∧ (nameSearch w medicineName = Normal (Some []) →
     completion (searchMedicine.execute w medicineName)
     = Normal (searchMedicine.Found medicineName [] 0)).
Proof.
  unfold searchMedicine.execute.
  rewrite try_catch_completion, searchMedicine_body. split_and!.
  - destruct (nameSearch w medicineName) as [[groups|]|e]; simpl; by eexists.
  - intros ->. simpl. eexists _, _. split_and!; [done | done | | done].
    vm_compute. reflexivity.
  - by intros ->.
Qed.

Lemma search_medicine_not_found_witness :
  nameSearch Examples.unknownWorld "Crocin" = Normal None
  ∧ ∃ message suggestion,
      completion (searchMedicine.execute Examples.unknownWorld "Crocin")
      = Normal (searchMedicine.NotFound message suggestion)
      ∧ suggestion ≠ EmptyString.
Proof.
  split; [reflexivity|].
  destruct (search_medicine_not_found Examples.unknownWorld "Crocin")
    as (_ & Hnone & _).
  destruct (Hnone eq_refl) as (message & suggestion & H & Hne & _).
  by exists message, suggestion.
Defined.

(** ** The HTTP handler *)

Lemma postApiSearch_falsy w (body : gmap string JsValue) :
  truthy (default JsUndefined (body !! "query")) = false →
  server.postApiSearch w body
  = (Normal {| server.status := 400;
               server.json := server.ErrorBody "Query is required" |}, []).
Proof. unfold server.postApiSearch. by intros ->. Qed.

Lemma main_truthy w query :
  truthy query = true →
  main w query
  = if stringifies query then (run w query, [EvRun query])
    else (Thrown {| kind := TypeError;
                    message := "Cannot convert object to primitive value" |},
          []).
Proof.
  intros Ht. unfold main.
  assert (match query with
          | JsUndefined => JsString EmptyString
          | _ => query
          end = query) as -> by (by destruct query).
  rewrite Ht. unfold templateLiteral.
  destruct (stringifies query); [|done].
  run_monad. by destruct (run w query).
Qed.

(** The handler, case by case. *)
Lemma postApiSearch_outcome w (body : gmap string JsValue) :
  server.postApiSearch w body
  = let query := default JsUndefined (body !! "query") in
    if truthy query then
      if stringifies query then
        (Normal match run w query with
                | Normal result =>
                    {| server.status := 200;
                       server.json := server.ResultBody true result |}
                | Thrown _ =>
                    {| server.status := 500;
                       server.json :=
                         server.FailureBody false
                           "Failed to process your request. Please try again." |}
                end,
         [EvRun query])
      else
        (Normal {| server.status := 500;
                   server.json :=
                     server.FailureBody false
                       "Failed to process your request. Please try again." |},
         [])
    else
      (Normal {| server.status := 400;
                 server.json := server.ErrorBody "Query is required" |}, []).
Proof.
  unfold server.postApiSearch. cbn zeta.
  destruct (truthy (default JsUndefined (body !! "query"))) eqn:Ht; [|done].
  cbn [negb]. rewrite (main_truthy w _ Ht). unfold templateLiteral.
  destruct (stringifies (default JsUndefined (body !! "query"))); [|done].
  run_monad. by destruct (run w _).
Qed.

Lemma postApiSearch_truthy w (body : gmap string JsValue) query :
  body !! "query" = Some query → truthy query = true →
  stringifies query = true →
  calls (server.postApiSearch w body) = [EvRun query]
  ∧ completion (server.postApiSearch w body)
    = Normal match run w query with
             | Normal result =>
                 {| server.status := 200;
                    server.json := server.ResultBody true result |}
             | Thrown _ =>
                 {| server.status := 500;
                    server.json :=
                      server.FailureBody false
                        "Failed to process your request. Please try again." |}
             end.
Proof.
  intros Hq Ht Hs. rewrite postApiSearch_outcome, Hq. cbn zeta. simpl.
  by rewrite Ht, Hs.
Qed.

(** C2.  A request whose body has no query, or an empty one, is answered
    with status 400 and { error: "Query is required" } whatever the world is,
    and issues no outbound call; the agent is run only on a query that is
    present and not empty. *)
Theorem post_search_requires_query w (body : gmap string JsValue) :
  (body !! "query" = None ∨ body !! "query" = Some (JsString EmptyString) →
   server.postApiSearch w body
   = (Normal {| server.status := 400;
                server.json := server.ErrorBody "Query is required" |}, []))
  ∧ (∀ query, EvRun query ∈ calls (server.postApiSearch w body) →
       body !! "query" = Some query ∧ truthy query = true
       ∧ query ≠ JsString EmptyString).
Proof.
  split.
  - intros [H|H]; apply postApiSearch_falsy; by rewrite H.
  - intros query Hin.
    destruct (truthy (default JsUndefined (body !! "query"))) eqn:Ht.
    + destruct (body !! "query") as [q|] eqn:Hq; [|done]. simpl in Ht.
      destruct (stringifies q) eqn:Hs.
      * destruct (postApiSearch_truthy w body q Hq Ht Hs) as [Hcalls _].
        rewrite Hcalls in Hin. apply list_elem_of_singleton in Hin as [= ->].
        split_and!; [done | done | by intros ->].
      * rewrite postApiSearch_outcome, Hq in Hin. cbn zeta in Hin.
        simpl in Hin. rewrite Ht, Hs in Hin. by apply elem_of_nil in Hin.
    + rewrite (postApiSearch_falsy w body Ht) in Hin.
      by apply elem_of_nil in Hin.
Qed.

Lemma post_search_requires_query_witness :
  server.postApiSearch Examples.lipitorWorld (∅ : gmap string JsValue)
  = (Normal {| server.status := 400;
               server.json := server.ErrorBody "Query is required" |}, [])
  ∧ server.postApiSearch Examples.lipitorWorld
      ({[ "query" := JsString EmptyString ]} : gmap string JsValue)
    = (Normal {| server.status := 400;
                 server.json := server.ErrorBody "Query is required" |}, [])
  ∧ truthy (JsString "Lipitor 20mg") = true.
Proof.
  split_and!.
  - apply (post_search_requires_query Examples.lipitorWorld ∅).
    left. apply lookup_empty.
  - apply (post_search_requires_query Examples.lipitorWorld
             {[ "query" := JsString EmptyString ]}).
    right. apply lookup_singleton_eq.
  - apply (proj2 (post_search_requires_query Examples.lipitorWorld
                    {[ "query" := JsString "Lipitor 20mg" ]})
             (JsString "Lipitor 20mg")).
    destruct (postApiSearch_truthy Examples.lipitorWorld
                {[ "query" := JsString "Lipitor 20mg" ]}
                (JsString "Lipitor 20mg")) as [-> _];
      [apply lookup_singleton_eq | reflexivity | reflexivity
      | apply list_elem_of_here].
Defined.

(** ** The vocabulary step of find_generic_with_prices *)

Lemma related_url_not_drugs_url id encoded :
  rxnavRelatedUrl id ≠ rxnavDrugsUrl encoded.
Proof.
  unfold rxnavRelatedUrl, rxnavDrugsUrl. intros H.
  repeat (rewrite !append_cons in H; injection H as H).
  discriminate H.
Qed.

(** The step, case by case: what it completes with and the requests it
    issues. *)
Lemma vocabularyStep_outcome w medicineName :
  vocabularyStep w medicineName
  = match encodeURIComponent w medicineName with
    | Thrown e => (Thrown e, [])
    | Normal encoded =>
        match axios_get w (rxnavDrugsUrl encoded) ≫= drugGroup_conceptGroup with
        | Thrown e => (Thrown e, [EvGet (rxnavDrugsUrl encoded)])
        | Normal None =>
            (Normal (initialResult medicineName),
             [EvGet (rxnavDrugsUrl encoded)])
        | Normal (Some groups) =>
            match (match firstConcept "SCD" groups with
                   | Some p => Some p
                   | None => firstConcept "SBD" groups
                   end) with
            | None =>
                (Normal (initialResult medicineName),
                 [EvGet (rxnavDrugsUrl encoded)])
            | Some p =>
                (match axios_get w (rxnavRelatedUrl (RxNav.rxcui p))
                       ≫= allRelatedGroup_conceptGroup with
                 | Thrown e => Thrown e
                 | Normal None => Normal (initialResult medicineName)
                 | Normal (Some rgroups) =>
                     match foldlM findGenericWithPrices.derive
                             findGenericWithPrices.emptyApiResult rgroups with
                     | Normal apiResult =>
                         Normal
                           {| findGenericWithPrices.query := medicineName;
                              findGenericWithPrices.r_apiData := Some apiResult;
                              findGenericWithPrices.r_indianPrices := None;
                              findGenericWithPrices.r_error := None |}
                     | Thrown e => Thrown e
                     end
                 end,
                 [EvGet (rxnavDrugsUrl encoded);
                  EvGet (rxnavRelatedUrl (RxNav.rxcui p))])
            end
        end
    end.
Proof.
  unfold vocabularyStep, findGenericWithPrices.step1. run_monad.
  destruct (encodeURIComponent w medicineName) as [enc|]; [|done]. simpl.
  destruct (axios_get w (rxnavDrugsUrl enc)) as [resp|]; [|done]. simpl.
  destruct (drugGroup_conceptGroup resp) as [[groups|]|]; [|done|done]. simpl.
  rewrite scan_nothingFound. unfold findGenericWithPrices.target. simpl.
  destruct (firstConcept "SCD" groups) as [p|];
    [| destruct (firstConcept "SBD" groups) as [p|]; [|done] ];
    simpl;
    (destruct (axios_get w (rxnavRelatedUrl (RxNav.rxcui p))) as [rr|]; [|done]);
    simpl;
    (destruct (allRelatedGroup_conceptGroup rr) as [[rgroups|]|]; [|done|done]);
    simpl; by destruct (foldlM _ _ rgroups).
Qed.

Lemma nameSearch_unfold w medicineName :
  nameSearch w medicineName
  = match encodeURIComponent w medicineName with
    | Thrown e => Thrown e
    | Normal encoded =>
        axios_get w (rxnavDrugsUrl encoded) ≫= drugGroup_conceptGroup
    end.
Proof.
  unfold nameSearch. by destruct (encodeURIComponent w medicineName).
Qed.

(** The requests of the vocabulary step: the name search, then the related
    concepts of the formulation concept when there is one. *)
Lemma vocabularyStep_calls w medicineName :
  calls (vocabularyStep w medicineName)
  = match encodeURIComponent w medicineName with
    | Normal encoded => [EvGet (rxnavDrugsUrl encoded)]
    | Thrown _ => []
    end
    ++ match formulation w medicineName with
       | Some p => [EvGet (rxnavRelatedUrl (RxNav.rxcui p))]
       | None => []
       end.
Proof.
  rewrite vocabularyStep_outcome. unfold formulation, yielded.
  rewrite nameSearch_unfold.
  destruct (encodeURIComponent w medicineName) as [enc|]; [|done].
  destruct (axios_get w (rxnavDrugsUrl enc) ≫= drugGroup_conceptGroup)
    as [[groups|]|]; [|done|done].
  destruct (firstConcept "SCD" groups); [done|].
  by destruct (firstConcept "SBD" groups).
Qed.



(** The vocabulary step reads the world only through encodeURIComponent and
    axios.get. *)
Lemma vocabularyStep_ext w w' medicineName :
  (∀ s, encodeURIComponent w' s = encodeURIComponent w s) →
  (∀ u, axios_get w' u = axios_get w u) →
  vocabularyStep w' medicineName = vocabularyStep w medicineName.
Proof.
  intros Henc Hget. rewrite !vocabularyStep_outcome, Henc.
  destruct (encodeURIComponent w medicineName) as [enc|]; [|done].
  rewrite Hget.
  destruct (axios_get w (rxnavDrugsUrl enc) ≫= drugGroup_conceptGroup)
    as [[groups|]|]; [|done|done].
  destruct (match firstConcept "SCD" groups with
            | Some p => Some p
            | None => firstConcept "SBD" groups
            end) as [p|]; [|done].
  by rewrite Hget.
Qed.

(** The price step reads the world only through generateText. *)
Lemma priceOutcome_ext w w' medicineName api :
  (∀ prompt, generateText w' prompt = generateText w prompt) →
  priceOutcome w' medicineName api = priceOutcome w medicineName api.
Proof. intros H. unfold priceOutcome. by rewrite H. Qed.

(** C1.  find_generic_with_prices completes normally in every world.  The
    price search is issued after the vocabulary step's requests whatever that
    step did, so indianPrices is never null: a price result, or the error
    marker with the message when the price search fails.  apiData is what the
    vocabulary step left, and no outcome of the generation service changes
    it. *)
Theorem find_generic_failures_independent w medicineName :
  ∃ payload,
    completion (findGenericWithPrices.execute w medicineName) = Normal payload
    ∧ calls (findGenericWithPrices.execute w medicineName)
      = calls (vocabularyStep w medicineName)
        ++ [EvGenerate (pricePrompt w medicineName)]
    ∧ findGenericWithPrices.apiData payload = vocabulary w medicineName
    ∧ (∀ e, completion (vocabularyStep w medicineName) = Thrown e →
         EvGenerate (pricePrompt w medicineName)
           ∈ calls (findGenericWithPrices.execute w medicineName)
         ∧ findGenericWithPrices.indianPrices payload ≠ None
         ∧ ((∃ data sources queries,
               findGenericWithPrices.indianPrices payload
               = Some (findGenericWithPrices.Prices data sources queries))
            ∨ (∃ message,
                 findGenericWithPrices.indianPrices payload
                 = Some (findGenericWithPrices.PricesError message))))
    ∧ (∀ e, generateText w (pricePrompt w medicineName) = Thrown e →
         findGenericWithPrices.apiData payload = vocabulary w medicineName
         ∧ findGenericWithPrices.indianPrices payload
           = Some (findGenericWithPrices.PricesError (message e)))
    ∧ (∀ w' payload',
         (∀ s, encodeURIComponent w' s = encodeURIComponent w s) →
         (∀ u, axios_get w' u = axios_get w u) →
         completion (findGenericWithPrices.execute w' medicineName)
         = Normal payload' →
         findGenericWithPrices.apiData payload'
         = findGenericWithPrices.apiData payload).
Proof.
  eexists. rewrite execute_outcome. unfold completion, calls. simpl.
  split_and!; try done.
  - intros e _. split_and!.
    + apply elem_of_app. right. apply list_elem_of_here.
    + done.
    + destruct (priceOutcome w medicineName (vocabulary w medicineName))
        as [data sources queries|msg];
        [left; by eexists _, _, _ | right; by eexists].
  - intros e He. split; [done|]. unfold priceOutcome.
    fold (pricePrompt w medicineName). by rewrite He.
  - intros w' payload' Henc Hget. rewrite execute_outcome. simpl.
    intros [= <-]. simpl. unfold vocabulary.
    by rewrite (vocabularyStep_ext w w').
Qed.

Lemma find_generic_failures_independent_witness :
  (∃ sources queries data,
     completion (findGenericWithPrices.execute Examples.rxnavDown "Lipitor 20mg")
     = Normal
         {| findGenericWithPrices.success := true;
            findGenericWithPrices.medicine := "Lipitor 20mg";
            findGenericWithPrices.apiData := None;
            findGenericWithPrices.indianPrices :=
              Some (findGenericWithPrices.Prices data sources queries);
            findGenericWithPrices.tip := findGenericWithPrices.tip_text |})
  ∧ (∃ payload,
       completion (findGenericWithPrices.execute Examples.geminiDown "Lipitor 20mg")
       = Normal payload
       ∧ findGenericWithPrices.apiData payload
         = vocabulary Examples.lipitorWorld "Lipitor 20mg"
       ∧ findGenericWithPrices.indianPrices payload
         = Some (findGenericWithPrices.PricesError
                   "Resource has been exhausted")).
Proof.
  split.
  - destruct (find_generic_failures_independent Examples.rxnavDown
                "Lipitor 20mg") as (payload & Hp & _ & Hapi & Hvoc & _).
    destruct (Hvoc Examples.timeout5000 eq_refl) as (_ & _ & Hprices).
    vm_compute in Hp. injection Hp as <-. by eexists _, _, _.
  - destruct (find_generic_failures_independent Examples.geminiDown
                "Lipitor 20mg") as (payload & Hp & _ & Hapi & _ & Hprice & _).
    destruct (Hprice Examples.quota eq_refl) as [_ Herr].
    exists payload. split_and!; [done | | done].
    rewrite Hapi. reflexivity.
Defined.

(** C8.  Every find_generic_with_prices payload has success true and the
    static Jan Aushadhi tip, also when both lookups fail.  When the
    vocabulary step throws, the payload is the one built from the price
    search alone with apiData null: the thrown error does not occur in it,
    and two worlds with the same generation service whose vocabulary steps
    both fail, with whatever errors, return the same payload. *)
Theorem find_generic_always_succeeds w medicineName :
  ∃ payload,
    completion (findGenericWithPrices.execute w medicineName) = Normal payload
    ∧ findGenericWithPrices.success payload = true
    ∧ findGenericWithPrices.tip payload = findGenericWithPrices.tip_text
    ∧ (∀ e, completion (vocabularyStep w medicineName) = Thrown e →
         payload
         = {| findGenericWithPrices.success := true;
              findGenericWithPrices.medicine := medicineName;
              findGenericWithPrices.apiData := None;
              findGenericWithPrices.indianPrices :=
                Some (priceOutcome w medicineName None);
              findGenericWithPrices.tip := findGenericWithPrices.tip_text |}
         ∧ ∀ w' e',
             (∀ prompt, generateText w' prompt = generateText w prompt) →
             completion (vocabularyStep w' medicineName) = Thrown e' →
             completion (findGenericWithPrices.execute w' medicineName)
             = Normal payload).
Proof.
  eexists. rewrite execute_outcome. unfold completion. simpl.
  split_and!; try done.
  intros e He.
  assert (vocabulary w medicineName = None) as Hv.
  { unfold vocabulary, completion. by rewrite He. }
  rewrite Hv. split; [done|].
  intros w' e' Hgen He'. rewrite execute_outcome. simpl.
  assert (vocabulary w' medicineName = None) as ->.
  { unfold vocabulary, completion. by rewrite He'. }
  by rewrite (priceOutcome_ext w w').
Qed.

Lemma find_generic_always_succeeds_witness :
  completion (findGenericWithPrices.execute Examples.allDown "Lipitor 20mg")
  = Normal
      {| findGenericWithPrices.success := true;
         findGenericWithPrices.medicine := "Lipitor 20mg";
         findGenericWithPrices.apiData := None;
         findGenericWithPrices.indianPrices :=
           Some (findGenericWithPrices.PricesError
                   "Resource has been exhausted");
         findGenericWithPrices.tip := findGenericWithPrices.tip_text |}.
Proof.
  destruct (find_generic_always_succeeds Examples.allDown "Lipitor 20mg")
    as (payload & Hp & _ & _ & Hvoc).
  destruct (Hvoc Examples.timeout5000 eq_refl) as [-> _].
  rewrite Hp. reflexivity.
Defined.

(** C7.  The sources of find_generic_with_prices are a function of the
    grounding metadata alone: the extraction never throws and yields the
    chunks that have a web field, in their order, as { title, url }, the
    first 5 of them; the payload's sources are that list, so two executions
    that receive the same metadata return the same ordered list. *)
Theorem citation_extraction_deterministic :
  (∀ gm chunks,
     gm ≫= Grounding.groundingChunks = Some chunks →
     findGenericWithPrices.extractSources gm
     = Normal ((λ web, {| title := Grounding.title web;
                          url := Grounding.uri web |})
                 <$> take 5 (omap Grounding.web chunks)))
  ∧ (∀ gm, gm ≫= Grounding.groundingChunks = None →
           findGenericWithPrices.extractSources gm = Normal [])
  ∧ (∀ gm sources,
       findGenericWithPrices.extractSources gm = Normal sources →
       length sources ≤ 5)
  ∧ (∀ w medicineName generated,
       generateText w (pricePrompt w medicineName) = Normal generated →
       ∃ payload,
         completion (findGenericWithPrices.execute w medicineName)
         = Normal payload
         ∧ findGenericWithPrices.extractSources (groundingMetadataOf generated)
           = Normal (sourcesIn payload))
  ∧ (∀ w1 w2 name1 name2 generated1 generated2 payload1 payload2,
       generateText w1 (pricePrompt w1 name1) = Normal generated1 →
       generateText w2 (pricePrompt w2 name2) = Normal generated2 →
       groundingMetadataOf generated1 = groundingMetadataOf generated2 →
       completion (findGenericWithPrices.execute w1 name1) = Normal payload1 →
       completion (findGenericWithPrices.execute w2 name2) = Normal payload2 →
       sourcesIn payload1 = sourcesIn payload2).
Proof.
  assert (∀ w medicineName generated payload,
            generateText w (pricePrompt w medicineName) = Normal generated →
            completion (findGenericWithPrices.execute w medicineName)
            = Normal payload →
            sourcesIn payload = sourcesOf (groundingMetadataOf generated))
    as Hsources.
  { intros w medicineName generated payload Hgen.
    rewrite execute_outcome. unfold completion. simpl. intros [= <-].
    unfold sourcesIn, priceOutcome. simpl.
    fold (pricePrompt w medicineName). by rewrite Hgen. }
  split_and!.
  - intros gm chunks H. rewrite extractSources_total. unfold sourcesOf.
    by rewrite H.
  - intros gm H. rewrite extractSources_total. unfold sourcesOf. by rewrite H.
  - intros gm sources. rewrite extractSources_total. intros [= <-].
    unfold sourcesOf. destruct (gm ≫= Grounding.groundingChunks).
    + apply citations_length.
    + simpl. lia.
  - intros w medicineName generated Hgen. eexists. split.
    + rewrite execute_outcome. reflexivity.
    + rewrite extractSources_total. f_equal. symmetry.
      apply (Hsources w medicineName); [done|].
      by rewrite execute_outcome.
  - intros w1 w2 name1 name2 g1 g2 p1 p2 Hg1 Hg2 Hgm Hp1 Hp2.
    rewrite (Hsources w1 name1 g1 p1), (Hsources w2 name2 g2 p2) by done.
    by rewrite Hgm.
Qed.

Lemma citation_extraction_deterministic_witness :
  findGenericWithPrices.extractSources
    (groundingMetadataOf (Examples.grounded "text" Examples.sevenChunks))
  = Normal [ {| title := "1mg"; url := "https://a.example/1" |};
             {| title := "apollo"; url := "https://a.example/2" |};
             {| title := "netmeds"; url := "https://a.example/3" |};
             {| title := "pharmeasy"; url := "https://a.example/4" |};
             {| title := "janaushadhi"; url := "https://a.example/5" |} ].
Proof.
  apply (proj1 citation_extraction_deterministic
           (groundingMetadataOf (Examples.grounded "text" Examples.sevenChunks))
           Examples.sevenChunks).
  reflexivity.
Defined.

Lemma lastProps_snoc ty groups group :
  lastProps ty (groups ++ [group])
  = match (if decide (RxNav.tty group = ty)
           then RxNav.conceptProperties group else None) with
    | Some props => Some props
    | None => lastProps ty groups
    end.
Proof.
  unfold lastProps. rewrite omap_app. simpl.
  destruct (if decide (RxNav.tty group = ty) then _ else _) as [props|].
  - by rewrite last_snoc.
  - by rewrite app_nil_r.
Qed.

(** The derivation throws on a group exactly when the group makes it read
    the name of the first element of an empty array. *)
Lemma derive_Thrown apiResult group :
  (∃ e, findGenericWithPrices.derive apiResult group = Thrown e)
  ↔ emptyNamedGroup group.
Proof.
  unfold findGenericWithPrices.derive, emptyNamedGroup.
  destruct group as [tty [[|p props]|]]; cbn [RxNav.tty RxNav.conceptProperties].
  - destruct (decide (tty = "IN")) as [->|H1]; simpl.
    { split; [intros _; split; [done | by left] | by eexists]. }
    destruct (decide (tty = "SCD")) as [->|H2]; simpl.
    { split; [intros _; split; [done | right; by left] | by eexists]. }
    destruct (decide (tty = "BN")) as [->|H3]; simpl.
    { split; [by intros [e ?] | intros [_ [?|[?|?]]]; done]. }
    destruct (decide (tty = "DF")) as [->|H4]; simpl.
    { split; [intros _; split; [done | right; by right] | by eexists]. }
    split; [by intros [e ?] | intros [_ [?|[?|?]]]; done].
  - split; [|by intros [? _]].
    intros [e H]. revert H. by repeat (case_decide; simpl).
  - split; [by intros [e ?] | by intros [? _]].
Qed.

Lemma foldlM_derive_Thrown apiResult rgroups :
  (∃ e, foldlM findGenericWithPrices.derive apiResult rgroups = Thrown e)
  ↔ Exists emptyNamedGroup rgroups.
Proof.
  revert apiResult. induction rgroups as [|g rgroups IH]; intros apiResult.
  - split; [by intros [e ?] | by intros ?%Exists_nil].
  - rewrite Exists_cons, <- (derive_Thrown apiResult g). simpl.
    destruct (findGenericWithPrices.derive apiResult g) as [a|e] eqn:E; simpl.
    + rewrite IH. split; [by right | intros [[e ?]|?]; done].
    + split; [intros _; left; by eexists | intros _; by eexists].
Qed.

Lemma vocabulary_relatedConcepts w medicineName :
  vocabulary w medicineName
  = (rgroups ← relatedConcepts w medicineName;
     match foldlM findGenericWithPrices.derive
             findGenericWithPrices.emptyApiResult rgroups with
     | Normal apiResult => Some apiResult
     | Thrown _ => None
     end).
Proof.
  unfold vocabulary, relatedConcepts, formulation, yielded.
  rewrite vocabularyStep_outcome, nameSearch_unfold. unfold completion.
  destruct (encodeURIComponent w medicineName) as [enc|]; [|done].
  destruct (axios_get w (rxnavDrugsUrl enc) ≫= drugGroup_conceptGroup)
    as [[groups|]|]; [|done|done].
  destruct (match firstConcept "SCD" groups with
            | Some p => Some p
            | None => firstConcept "SBD" groups
            end) as [p|]; [|done]. simpl.
  destruct (axios_get w (rxnavRelatedUrl (RxNav.rxcui p))
            ≫= allRelatedGroup_conceptGroup) as [[rgroups|]|]; [|done|done].
  simpl. by destruct (foldlM _ _ rgroups).
Qed.




(** An IN group with a first concept overwrites the active ingredient,
    whatever an earlier group assigned. *)
Lemma derive_ingredient_overwrites apiResult p props :
  findGenericWithPrices.derive apiResult
    {| RxNav.tty := "IN"; RxNav.conceptProperties := Some (p :: props) |}
  = Normal {| findGenericWithPrices.genericName :=
                findGenericWithPrices.genericName apiResult;
              findGenericWithPrices.brandNames :=
                findGenericWithPrices.brandNames apiResult;
              findGenericWithPrices.activeIngredient := Some (RxNav.name p);
              findGenericWithPrices.dosageForm :=
                findGenericWithPrices.dosageForm apiResult |}.
Proof. reflexivity. Qed.



(** C5 (the code at the failing input).  With two IN groups in the
    related-concepts response the derived active ingredient is the first
    concept of the last IN group, not the first ingredient concept seen. *)
Example related_derivation_last_group_wins :
  relatedConcepts Examples.twoGroupsWorld "Lipitor 20mg"
  = Some Examples.twoIngredientGroups
  ∧ RxNav.name <$> firstConcept "IN" Examples.twoIngredientGroups
    = Some "atorvastatin"
  ∧ ∃ payload,
      completion (findGenericWithPrices.execute Examples.twoGroupsWorld
                    "Lipitor 20mg") = Normal payload
      ∧ findGenericWithPrices.apiData payload
          ≫= findGenericWithPrices.activeIngredient
        = Some "amlodipine".
Proof.
  split_and!; [reflexivity | reflexivity |].
  eexists. split; [by rewrite execute_outcome|]. reflexivity.
Qed.

(** ** The tool boundary *)



Section Transport.
Context (w : World).







End Transport.




(** * Further properties of the code *)

(** ** get_medicine_details *)

Lemma getMedicineDetails_loop rxcui groups :
  foldl getMedicineDetails.step (getMedicineDetails.initial rxcui) groups
  = {| getMedicineDetails.d_rxcui := rxcui;
       getMedicineDetails.ingredient :=
         mapProps getMedicineDetails.named (lastProps "IN" groups);
       getMedicineDetails.genericDrug :=
         mapProps (getMedicineDetails.typed "GENERIC") (lastProps "SCD" groups);
       getMedicineDetails.brandNames :=
         default [] (mapProps getMedicineDetails.named (lastProps "BN" groups));
       getMedicineDetails.brandedDrugs :=
         default []
           (mapProps (getMedicineDetails.typed "BRANDED") (lastProps "SBD" groups));
       getMedicineDetails.dosageForm :=
         mapProps RxNav.name (lastProps "DF" groups) |}.
Proof.
  induction groups as [|g groups IH] using rev_ind; [done|].
  rewrite foldl_app. cbn [foldl]. rewrite IH, !lastProps_snoc.
  unfold getMedicineDetails.step.
  destruct g as [tty [props|]]; cbn [RxNav.tty RxNav.conceptProperties].
  - cbn [getMedicineDetails.d_rxcui getMedicineDetails.ingredient
         getMedicineDetails.genericDrug getMedicineDetails.brandNames
         getMedicineDetails.brandedDrugs getMedicineDetails.dosageForm].
    destruct (decide (tty = "IN")) as [->|?]; [done|].
    destruct (decide (tty = "SCD")) as [->|?]; [done|].
    destruct (decide (tty = "BN")) as [->|?]; [done|].
    destruct (decide (tty = "SBD")) as [->|?]; [done|].
    destruct (decide (tty = "DF")) as [->|?]; done.
  - by repeat case_decide.
Qed.

(** X1.  A successful get_medicine_details answer echoes the identifier it
    was asked about, and each of its five fields is built from the last
    group of its type in the related-concepts response that has
    conceptProperties: IN, SCD and DF give null when there is no such group,
    BN and SBD give the empty list. *)
Theorem medicine_details_fields w rxcui data recommendation :
  completion (getMedicineDetails.execute w rxcui)
  = Normal (getMedicineDetails.Found data recommendation) →
  ∃ response groups,
    axios_get w (rxnavRelatedUrl rxcui) = Normal response
    ∧ allRelatedGroup_conceptGroup response = Normal (Some groups)
    ∧ getMedicineDetails.d_rxcui data = rxcui
    ∧ getMedicineDetails.ingredient data
      = mapProps getMedicineDetails.named (lastProps "IN" groups)
    ∧ getMedicineDetails.genericDrug data
      = mapProps (getMedicineDetails.typed "GENERIC") (lastProps "SCD" groups)
    ∧ getMedicineDetails.brandNames data
      = default [] (mapProps getMedicineDetails.named (lastProps "BN" groups))
    ∧ getMedicineDetails.brandedDrugs data
      = default []
          (mapProps (getMedicineDetails.typed "BRANDED") (lastProps "SBD" groups))
    ∧ getMedicineDetails.dosageForm data
      = mapProps RxNav.name (lastProps "DF" groups).
Proof.
  unfold getMedicineDetails.execute, getMedicineDetails.body. run_monad.
  destruct (axios_get w (rxnavRelatedUrl rxcui)) as [response|]; [|done].
  simpl. destruct (allRelatedGroup_conceptGroup response) as [[groups|]|] eqn:E;
    [|done|done].
  simpl. intros [= <- _]. exists response, groups.
  rewrite getMedicineDetails_loop. by split_and!.
Qed.

Lemma medicine_details_fields_witness :
  ∃ data recommendation,
    completion (getMedicineDetails.execute Examples.lipitorWorld "617310")
    = Normal (getMedicineDetails.Found data recommendation)
    ∧ getMedicineDetails.d_rxcui data = "617310"
    ∧ getMedicineDetails.dosageForm data = Some ["Oral Tablet"].
Proof.
  eexists _, _. split; [reflexivity|].
  destruct (medicine_details_fields Examples.lipitorWorld "617310" _ _ eq_refl)
    as (response & groups & Hget & Hgroups & Hid & _ & _ & _ & _ & Hdf).
  split; [exact Hid|]. rewrite Hdf.
  vm_compute in Hget. injection Hget as <-.
  vm_compute in Hgroups. injection Hgroups as <-. reflexivity.
Defined.

(** ** find_generic_equivalent *)

Lemma find_target_filter groups :
  findGenericEquivalent.find_target groups
  = match filter isFormulationGroup groups with
    | [] => Normal None
    | group :: _ =>
        match RxNav.conceptProperties group with
        | Some (p :: _) => Normal (Some p)
        | _ => Thrown (undefinedRead "rxcui")
        end
    end.
Proof.
  induction groups as [|g groups IH]; [done|].
  cbn [findGenericEquivalent.find_target]. rewrite filter_cons.
  destruct (decide (isFormulationGroup g)) as [[[props E] Hty]|Hno].
  - rewrite E.
    assert (bool_decide (RxNav.tty g = "SCD")
            || bool_decide (RxNav.tty g = "SBD") = true) as ->.
    { apply orb_true_iff. rewrite !bool_decide_eq_true. exact Hty. }
    by destruct props.
  - destruct (RxNav.conceptProperties g) as [props|] eqn:E; [|done].
    assert (bool_decide (RxNav.tty g = "SCD")
            || bool_decide (RxNav.tty g = "SBD") = false) as ->; [|done].
    apply orb_false_iff. rewrite !bool_decide_eq_false.
    split; intros Hty; apply Hno; (split; [by rewrite E | tauto]).
Qed.

Lemma findGenericEquivalent_search w brandName groups :
  nameSearch w brandName = Normal (Some groups) →
  ∃ encoded,
    encodeURIComponent w brandName = Normal encoded
    ∧ findGenericEquivalent.body w brandName
      = (let r :=
           target ← lift (findGenericEquivalent.find_target groups);
           match target with
           | Some p =>
               if bool_decide (RxNav.rxcui p = EmptyString) then
                 mret (findGenericEquivalent.NotFound
                         "Could not identify a specific drug formulation. Please provide more details like dosage.")
               else
                 relatedResponse ← get w (rxnavRelatedUrl (RxNav.rxcui p));
                 related ← lift (allRelatedGroup_conceptGroup relatedResponse);
                 let result :=
                   {| findGenericEquivalent.searchedFor := brandName;
                      findGenericEquivalent.identifiedAs := RxNav.name p;
                      findGenericEquivalent.activeIngredient := None;
                      findGenericEquivalent.genericVersion := None;
                      findGenericEquivalent.brandedVersions := [];
                      findGenericEquivalent.recommendation := None |} in
                 let result :=
                   match related with
                   | Some rgroups => foldl findGenericEquivalent.step result rgroups
                   | None => result
                   end in
                 mret (findGenericEquivalent.Found
                         (findGenericEquivalent.recommend result))
           | None =>
               mret (findGenericEquivalent.NotFound
                       "Could not identify a specific drug formulation. Please provide more details like dosage.")
           end in
         (r.1, EvGet (rxnavDrugsUrl encoded) :: r.2)).
Proof.
  rewrite nameSearch_unfold. unfold findGenericEquivalent.body.
  destruct (encodeURIComponent w brandName) as [enc|]; [|done].
  intros H. exists enc. split; [done|]. run_monad.
  destruct (axios_get w (rxnavDrugsUrl enc)) as [resp|]; [|done].
  simpl in *. by rewrite H.
Qed.

(** X2.  find_generic_equivalent identifies the medicine by the first group
    of the name search that has conceptProperties and is of type SCD or SBD,
    whichever of the two comes first: when that group's first concept has a
    non-empty identifier, the requests are the name search and the related
    concepts of that identifier, and no other. *)
Theorem generic_equivalent_target w brandName groups group rest p props :
  nameSearch w brandName = Normal (Some groups) →
  filter isFormulationGroup groups = group :: rest →
  RxNav.conceptProperties group = Some (p :: props) →
  RxNav.rxcui p ≠ EmptyString →
  ∃ encoded,
    encodeURIComponent w brandName = Normal encoded
    ∧ calls (findGenericEquivalent.execute w brandName)
      = [EvGet (rxnavDrugsUrl encoded);
         EvGet (rxnavRelatedUrl (RxNav.rxcui p))]
    ∧ ∀ data,
        completion (findGenericEquivalent.execute w brandName)
        = Normal (findGenericEquivalent.Found data) →
        findGenericEquivalent.identifiedAs data = RxNav.name p.
Proof.
  intros Hsearch Hfilter Hprops Hid.
  destruct (findGenericEquivalent_search w brandName groups Hsearch)
    as (enc & Henc & Hbody).
  exists enc. split; [done|].
  unfold findGenericEquivalent.execute. rewrite Hbody.
  rewrite find_target_filter, Hfilter, Hprops. run_monad.
  rewrite bool_decide_eq_false_2 by done.
  assert (∀ result rgroups,
            findGenericEquivalent.identifiedAs
              (foldl findGenericEquivalent.step result rgroups)
            = findGenericEquivalent.identifiedAs result) as Hkeep.
  { intros result rgroups. revert result.
    induction rgroups as [|g rgroups IH]; intros result; [done|].
    simpl. rewrite IH. unfold findGenericEquivalent.step.
    destruct (RxNav.conceptProperties g); [|done].
    by repeat case_decide. }
  destruct (axios_get w (rxnavRelatedUrl (RxNav.rxcui p))) as [rr|];
    [|by split].
  simpl. destruct (allRelatedGroup_conceptGroup rr) as [[rgroups|]|];
    simpl; (split; [done|]); try done.
  - intros data [= <-]. unfold findGenericEquivalent.recommend.
    destruct (findGenericEquivalent.genericVersion _) as [[|? ?]|];
      simpl; by rewrite Hkeep.
  - intros data [= <-]. reflexivity.
Qed.

Lemma generic_equivalent_target_witness :
  calls (findGenericEquivalent.execute Examples.brandedFirstWorld "Lipitor")
  = [EvGet (rxnavDrugsUrl "Lipitor"); EvGet (rxnavRelatedUrl "617320")].
Proof.
  destruct (generic_equivalent_target Examples.brandedFirstWorld "Lipitor"
              Examples.brandedFirst
              (Examples.group "SBD"
                 [Examples.concept "617320"
                    "atorvastatin 20 MG Oral Tablet [Lipitor]"])
              [Examples.group "SCD"
                 [Examples.concept "617310" "atorvastatin 20 MG Oral Tablet"]]
              (Examples.concept "617320"
                 "atorvastatin 20 MG Oral Tablet [Lipitor]") [])
    as (enc & Henc & Hcalls & _);
    [reflexivity | reflexivity | reflexivity | by vm_compute |].
  vm_compute in Henc. injection Henc as <-. exact Hcalls.
Defined.

(** X3.  When the first such group of the name search holds an empty
    conceptProperties array, find_generic_equivalent does not look at the
    later groups: it returns the failure marker with the TypeError's message
    and issues no second request. *)
Theorem generic_equivalent_empty_first_group w brandName groups group rest :
  nameSearch w brandName = Normal (Some groups) →
  filter isFormulationGroup groups = group :: rest →
  RxNav.conceptProperties group = Some [] →
  ∃ encoded,
    encodeURIComponent w brandName = Normal encoded
    ∧ findGenericEquivalent.execute w brandName
      = (Normal (findGenericEquivalent.Failed
                   "Cannot read properties of undefined (reading 'rxcui')"),
         [EvGet (rxnavDrugsUrl encoded)]).
Proof.
  intros Hsearch Hfilter Hprops.
  destruct (findGenericEquivalent_search w brandName groups Hsearch)
    as (enc & Henc & Hbody).
  exists enc. split; [done|].
  unfold findGenericEquivalent.execute. rewrite Hbody.
  by rewrite find_target_filter, Hfilter, Hprops.
Qed.

Lemma generic_equivalent_empty_first_group_witness :
  findGenericEquivalent.execute Examples.emptyFirstWorld "Lipitor"
  = (Normal (findGenericEquivalent.Failed
               "Cannot read properties of undefined (reading 'rxcui')"),
     [EvGet (rxnavDrugsUrl "Lipitor")]).
Proof.
  destruct (generic_equivalent_empty_first_group Examples.emptyFirstWorld
              "Lipitor" Examples.emptyFirst (Examples.group "SCD" [])
              [Examples.group "SBD"
                 [Examples.concept "617320"
                    "atorvastatin 20 MG Oral Tablet [Lipitor]"]])
    as (enc & Henc & Hexec); [reflexivity | reflexivity | reflexivity |].
  vm_compute in Henc. injection Henc as <-. exact Hexec.
Defined.

Lemma findGenericEquivalent_loop_keeps result rgroups :
  let result' := foldl findGenericEquivalent.step result rgroups in
  findGenericEquivalent.searchedFor result'
  = findGenericEquivalent.searchedFor result
  ∧ findGenericEquivalent.recommendation result'
    = findGenericEquivalent.recommendation result.
Proof.
  revert result. induction rgroups as [|g rgroups IH]; intros result; [done|].
  simpl. destruct (IH (findGenericEquivalent.step result g)) as [-> ->].
  unfold findGenericEquivalent.step.
  destruct (RxNav.conceptProperties g); [|done]. by repeat case_decide.
Qed.

Lemma findGenericEquivalent_found w brandName data :
  completion (findGenericEquivalent.execute w brandName)
  = Normal (findGenericEquivalent.Found data) →
  ∃ result,
    data = findGenericEquivalent.recommend result
    ∧ findGenericEquivalent.searchedFor result = brandName
    ∧ findGenericEquivalent.recommendation result = None.
Proof.
  unfold findGenericEquivalent.execute, findGenericEquivalent.body. run_monad.
  destruct (encodeURIComponent w brandName) as [enc|]; [|done]. simpl.
  destruct (axios_get w (rxnavDrugsUrl enc)) as [resp|]; [|done]. simpl.
  destruct (drugGroup_conceptGroup resp) as [[groups|]|]; [|done|done]. simpl.
  destruct (findGenericEquivalent.find_target groups) as [[p|]|];
    [|done|done]. simpl.
  destruct (bool_decide (RxNav.rxcui p = EmptyString)); [done|]. simpl.
  destruct (axios_get w (rxnavRelatedUrl (RxNav.rxcui p))) as [rr|]; [|done].
  simpl. destruct (allRelatedGroup_conceptGroup rr) as [[rgroups|]|];
    [| |done]; simpl; intros [= <-]; eexists; (split; [reflexivity|]).
  - apply findGenericEquivalent_loop_keeps.
  - done.
Qed.

(** X4.  A successful find_generic_equivalent answer names the query it was
    given, and carries a recommendation exactly when the related concepts
    gave at least one generic version: it then recommends the first generic
    version, repeats the active ingredient, and lists one brand to avoid for
    each branded version, in order. *)
Theorem generic_equivalent_recommendation w brandName data :
  completion (findGenericEquivalent.execute w brandName)
  = Normal (findGenericEquivalent.Found data) →
  findGenericEquivalent.searchedFor data = brandName
  ∧ match findGenericEquivalent.genericVersion data with
    | Some (generic :: _) =>
        ∃ r,
          findGenericEquivalent.recommendation data = Some r
          ∧ findGenericEquivalent.buyThis r
            = findGenericEquivalent.name generic
          ∧ findGenericEquivalent.r_activeIngredient r
            = findGenericEquivalent.activeIngredient data
          ∧ findGenericEquivalent.avoidTheseBrands r
            = findGenericEquivalent.brandOf
                <$> findGenericEquivalent.brandedVersions data
    | _ => findGenericEquivalent.recommendation data = None
    end.
Proof.
  intros (result & -> & Hsearched & Hnone)%findGenericEquivalent_found.
  unfold findGenericEquivalent.recommend.
  destruct (findGenericEquivalent.genericVersion result) as [[|g gs]|] eqn:E;
    simpl; rewrite ?E; split; try done.
  by eexists.
Qed.

Lemma generic_equivalent_recommendation_witness :
  ∃ data r,
    completion (findGenericEquivalent.execute Examples.brandedFirstWorld "Lipitor")
    = Normal (findGenericEquivalent.Found data)
    ∧ findGenericEquivalent.recommendation data = Some r
    ∧ findGenericEquivalent.buyThis r = "atorvastatin 20 MG Oral Tablet"
    ∧ findGenericEquivalent.avoidTheseBrands r = ["Lipitor"].
Proof.
  eexists _, _. split; [vm_compute; reflexivity|].
  destruct (generic_equivalent_recommendation Examples.brandedFirstWorld
              "Lipitor" _ eq_refl) as [_ H].
  vm_compute in H. destruct H as (r & Hr & Hbuy & _ & Havoid).
  vm_compute. injection Hr as <-. by split_and!.
Defined.

(** ** The brand inside a branded drug's name *)

Lemma after_first_app c pre rest :
  hasChar c pre = false →
  after_first c (pre +:+ String c rest) = Some rest.
Proof.
  induction pre as [|a pre IH]; intros H.
  - rewrite append_nil. simpl. by rewrite decide_True.
  - rewrite append_cons. simpl in *. apply orb_false_iff in H as [Ha Hpre].
    apply bool_decide_eq_false in Ha. rewrite decide_False by done. auto.
Qed.

Lemma after_first_absent c s : hasChar c s = false → after_first c s = None.
Proof.
  induction s as [|a s IH]; [done|]. simpl. intros H.
  apply orb_false_iff in H as [Ha Hs]. apply bool_decide_eq_false in Ha.
  rewrite decide_False by done. auto.
Qed.

Lemma before_first_absent c s : hasChar c s = false → before_first c s = s.
Proof.
  induction s as [|a s IH]; [done|]. simpl. intros H.
  apply orb_false_iff in H as [Ha Hs]. apply bool_decide_eq_false in Ha.
  rewrite decide_False by done. by rewrite IH.
Qed.

Lemma remove_first_app c s rest :
  hasChar c s = false → remove_first c (s +:+ String c rest) = s +:+ rest.
Proof.
  induction s as [|a s IH]; intros H.
  - rewrite !append_nil. simpl. by rewrite decide_True.
  - rewrite !append_cons. simpl in *. apply orb_false_iff in H as [Ha Hs].
    apply bool_decide_eq_false in Ha. rewrite decide_False by done.
    by rewrite IH.
Qed.

Lemma append_empty_r (s : string) : s +:+ EmptyString = s.
Proof.
  induction s as [|a s IH]; [done|]. by rewrite append_cons, IH.
Qed.

Lemma hasChar_app c s t : hasChar c (s +:+ t) = hasChar c s || hasChar c t.
Proof.
  induction s as [|a s IH]; [done|]. rewrite append_cons. simpl.
  by rewrite IH, orb_assoc.
Qed.

(** X5.  The brand to avoid is read out of the square brackets of a branded
    drug's name: a name that ends with one bracketed, non-empty brand gives
    that brand; a name without an opening bracket, or with empty brackets,
    is kept whole. *)
Theorem brand_of_bracketed_name (pre brand id : string) :
  hasChar lbracket pre = false →
  hasChar lbracket brand = false →
  hasChar rbracket brand = false →
  (brand ≠ EmptyString →
   findGenericEquivalent.brandOf
     {| findGenericEquivalent.name :=
          pre +:+ String lbracket (brand +:+ String rbracket EmptyString);
        findGenericEquivalent.rxcui := id |}
   = brand)
  ∧ findGenericEquivalent.brandOf
      {| findGenericEquivalent.name :=
           pre +:+ String lbracket (String rbracket EmptyString);
         findGenericEquivalent.rxcui := id |}
    = pre +:+ String lbracket (String rbracket EmptyString)
  ∧ findGenericEquivalent.brandOf
      {| findGenericEquivalent.name := pre;
         findGenericEquivalent.rxcui := id |}
    = pre.
Proof.
  intros Hpre Hl Hr. unfold findGenericEquivalent.brandOf, split_1.
  cbn [findGenericEquivalent.name]. fold lbracket rbracket. split_and!.
  - intros Hne. rewrite after_first_app by done. cbn [fmap option_fmap option_map].
    rewrite before_first_absent.
    + rewrite remove_first_app by done. unfold or_else.
      rewrite append_empty_r. by rewrite bool_decide_eq_false_2.
    + rewrite hasChar_app, Hl. by vm_compute.
  - rewrite after_first_app by done. cbn [fmap option_fmap option_map].
    by vm_compute.
  - by rewrite after_first_absent.
Qed.

Lemma brand_of_bracketed_name_witness :
  findGenericEquivalent.brandOf
    {| findGenericEquivalent.name := "atorvastatin 20 MG Oral Tablet [Lipitor]";
       findGenericEquivalent.rxcui := "617320" |}
  = "Lipitor".
Proof.
  apply (proj1 (brand_of_bracketed_name "atorvastatin 20 MG Oral Tablet "
                  "Lipitor" "617320" eq_refl eq_refl eq_refl)).
  discriminate.
Defined.

(** ** The two web search tools *)

Lemma omap_length_le {A B} (f : A → option B) (l : list A) :
  length (omap f l) ≤ length l.
Proof.
  induction l as [|x l IH]; [done|]. unfold omap in *. simpl.
  destruct (f x); simpl; lia.
Qed.

Lemma citations_all (chunks : list Grounding.Chunk) :
  citations (length chunks) chunks
  = (λ web, {| title := Grounding.title web; url := Grounding.uri web |})
      <$> omap Grounding.web chunks.
Proof.
  unfold citations. f_equal. apply take_ge, omap_length_le.
Qed.

Lemma citations_take (cap : nat) (chunks : list Grounding.Chunk) :
  citations cap chunks = take cap (citations (length chunks) chunks).
Proof.
  rewrite citations_all. unfold citations. by rewrite fmap_take.
Qed.

Lemma webSearchMedicine_sourcesInfo gm :
  webSearchMedicine.sourcesInfo gm
  = Normal match gm ≫= Grounding.groundingChunks with
           | Some chunks => citations (length chunks) chunks
           | None => []
           end.
Proof.
  unfold webSearchMedicine.sourcesInfo.
  destruct (gm ≫= Grounding.groundingChunks); [apply mapM_toSource_all | done].
Qed.

Lemma searchIndiaMedicine_sourcesInfo gm :
  searchIndiaMedicine.sourcesInfo gm = Normal (sourcesOf gm).
Proof.
  unfold searchIndiaMedicine.sourcesInfo, sourcesOf.
  destruct (gm ≫= Grounding.groundingChunks); [apply mapM_toSource_take | done].
Qed.

Lemma webSearchMedicine_found w searchQuery generated :
  generateText w (webSearchMedicine.prompt searchQuery) = Normal generated →
  completion (webSearchMedicine.execute w searchQuery)
  = Normal (webSearchMedicine.Found searchQuery (Grounding.text generated)
              (match groundingMetadataOf generated ≫= Grounding.groundingChunks with
               | Some chunks => citations (length chunks) chunks
               | None => []
               end)
              (searchQueriesOf (groundingMetadataOf generated))).
Proof.
  intros Hgen. unfold webSearchMedicine.execute, webSearchMedicine.body, generate.
  rewrite Hgen. unfold try_catch, mbind, M_bind, lift, completion.
  cbn -[webSearchMedicine.prompt]. by rewrite webSearchMedicine_sourcesInfo.
Qed.

Lemma searchIndiaMedicine_found w medicineName generated :
  generateText w (searchIndiaMedicine.searchPrompt medicineName)
  = Normal generated →
  completion (searchIndiaMedicine.execute w medicineName)
  = Normal (searchIndiaMedicine.Found medicineName "India"
              (Grounding.text generated)
              (sourcesOf (groundingMetadataOf generated))
              "Visit your nearest Jan Aushadhi Kendra for the cheapest generic medicines. Find stores at: janaushadhi.gov.in").
Proof.
  intros Hgen.
  unfold searchIndiaMedicine.execute, searchIndiaMedicine.body, generate.
  rewrite Hgen. unfold try_catch, mbind, M_bind, lift, completion.
  cbn -[searchIndiaMedicine.searchPrompt].
  by rewrite searchIndiaMedicine_sourcesInfo.
Qed.

(** X6.  web_search_medicine returns every grounding chunk that has a web
    field as a source, in order and without a cap, together with the
    answer's text and the search queries of the metadata (the empty list
    when there are none). *)
Theorem web_search_sources_uncapped w searchQuery generated chunks :
  generateText w (webSearchMedicine.prompt searchQuery) = Normal generated →
  groundingMetadataOf generated ≫= Grounding.groundingChunks = Some chunks →
  completion (webSearchMedicine.execute w searchQuery)
  = Normal
      (webSearchMedicine.Found searchQuery (Grounding.text generated)
         ((λ web, {| title := Grounding.title web; url := Grounding.uri web |})
            <$> omap Grounding.web chunks)
         (default [] (groundingMetadataOf generated
                        ≫= Grounding.webSearchQueries))).
Proof.
  intros Hgen Hchunks. rewrite (webSearchMedicine_found w _ generated Hgen).
  by rewrite Hchunks, citations_all.
Qed.

Lemma web_search_sources_uncapped_witness :
  ∃ result sources queries,
    completion (webSearchMedicine.execute Examples.lipitorWorld "atorvastatin price")
    = Normal (webSearchMedicine.Found "atorvastatin price" result sources queries)
    ∧ length sources = 6.
Proof.
  eexists _, _, _. split.
  - apply (web_search_sources_uncapped Examples.lipitorWorld
             "atorvastatin price" _ Examples.sevenChunks eq_refl eq_refl).
  - reflexivity.
Defined.

(** X7.  For the same grounding metadata, the sources of
    search_india_medicine are the first 5 sources of web_search_medicine,
    and they are the sources find_generic_with_prices returns. *)
Theorem india_sources_are_first_five
    w1 w2 w3 searchQuery medicineName name3 g1 g2 g3
    query1 result1 sources1 queries1 medicine2 country2 result2 sources2 tip2
    payload3 :
  generateText w1 (webSearchMedicine.prompt searchQuery) = Normal g1 →
  generateText w2 (searchIndiaMedicine.searchPrompt medicineName) = Normal g2 →
  generateText w3 (pricePrompt w3 name3) = Normal g3 →
  groundingMetadataOf g1 = groundingMetadataOf g2 →
  groundingMetadataOf g3 = groundingMetadataOf g2 →
  completion (webSearchMedicine.execute w1 searchQuery)
  = Normal (webSearchMedicine.Found query1 result1 sources1 queries1) →
  completion (searchIndiaMedicine.execute w2 medicineName)
  = Normal (searchIndiaMedicine.Found medicine2 country2 result2 sources2 tip2) →
  completion (findGenericWithPrices.execute w3 name3) = Normal payload3 →
  sources2 = take 5 sources1
  ∧ sourcesIn payload3 = sources2
  ∧ length sources2 ≤ 5
  ∧ country2 = "India".
Proof.
  intros H1 H2 H3 Hgm Hgm3.
  rewrite (webSearchMedicine_found w1 _ g1 H1).
  rewrite (searchIndiaMedicine_found w2 _ g2 H2).
  rewrite execute_outcome. unfold completion. simpl.
  intros [= _ _ <- _] [= _ <- _ <- _] [= <-].
  unfold sourcesIn, priceOutcome. simpl. fold (pricePrompt w3 name3).
  rewrite H3, Hgm, Hgm3. unfold sourcesOf.
  destruct (groundingMetadataOf g2 ≫= Grounding.groundingChunks) as [chunks|].
  - split_and!; [apply citations_take | done | apply citations_length | done].
  - split_and!; [done | done | simpl; lia | done].
Qed.

Lemma india_sources_are_first_five_witness :
  ∃ sources1 sources2 : list Source,
    sources2 = take 5 sources1 ∧ length sources1 = 6 ∧ length sources2 = 5.
Proof.
  eexists _, _.
  destruct (india_sources_are_first_five
              Examples.lipitorWorld Examples.lipitorWorld Examples.lipitorWorld
              "atorvastatin price" "Lipitor" "Lipitor 20mg"
              _ _ _ _ _ _ _ _ _ _ _ _ _
              eq_refl eq_refl eq_refl eq_refl eq_refl
              (webSearchMedicine_found Examples.lipitorWorld
                 "atorvastatin price" _ eq_refl)
              (searchIndiaMedicine_found Examples.lipitorWorld "Lipitor" _
                 eq_refl)
              (f_equal fst (execute_outcome Examples.lipitorWorld "Lipitor 20mg")))
    as (Htake & _ & _ & _).
  split; [exact Htake|]. split; reflexivity.
Defined.

(** ** The handler and the command line *)

(** X8.  The handler always answers and never throws: with status 400, 200
    or 500.  It answers 500 exactly when the query is truthy and either
    cannot be converted to a string for the logged message, in which case
    the agent is not run, or the agent run fails; the body is then the fixed
    message, whatever the error was.  It answers success true with the
    agent's final output exactly when the query converts and the run
    succeeds.  The agent is run at most once. *)
Theorem post_search_answers w (body : gmap string JsValue) :
  ∃ response,
    completion (server.postApiSearch w body) = Normal response
    ∧ (server.status response = 400 ∨ server.status response = 200
       ∨ server.status response = 500)
    ∧ (server.status response = 500 ↔
       ∃ query, body !! "query" = Some query ∧ truthy query = true
                ∧ (stringifies query = false ∨ ∃ e, run w query = Thrown e))
    ∧ (server.status response = 500 →
       server.json response
       = server.FailureBody false
           "Failed to process your request. Please try again.")
    ∧ (∀ result,
         server.json response = server.ResultBody true result ↔
         ∃ query, body !! "query" = Some query ∧ truthy query = true
                  ∧ stringifies query = true ∧ run w query = Normal result)
    ∧ length (calls (server.postApiSearch w body)) ≤ 1
    ∧ (∀ query, body !! "query" = Some query → stringifies query = false →
         calls (server.postApiSearch w body) = []).
Proof.
  rewrite postApiSearch_outcome. cbn zeta.
  destruct (body !! "query") as [q|] eqn:Hq; simpl.
  - destruct (truthy q) eqn:Ht; simpl.
    + destruct (stringifies q) eqn:Hs; simpl.
      * destruct (run w q) as [out|e] eqn:Hrun; eexists; (split; [done|]);
          simpl.
        -- split_and!; [auto | | done | | lia | ].
           ++ split; [done|].
              intros (q' & [= <-] & _ & [H|[e H]]); congruence.
           ++ intros result. split.
              ** intros [= <-]. by exists q.
              ** intros (q' & [= <-] & _ & _ & H). congruence.
           ++ intros q' [= <-] H. congruence.
        -- split_and!; [auto | | done | | lia | ].
           ++ split; [|done]. intros _. exists q. split_and!; try done.
              right. by exists e.
           ++ intros result. split; [done|].
              intros (q' & [= <-] & _ & _ & H). congruence.
           ++ intros q' [= <-] H. congruence.
      * eexists. split; [done|]. simpl.
        split_and!; [auto | | done | | lia | done].
        -- split; [|done]. intros _. exists q. split_and!; try done. by left.
        -- intros result. split; [done|].
           intros (q' & [= <-] & _ & H & _). congruence.
    + eexists. split; [done|]. simpl.
      split_and!; [auto | | done | | lia | done].
      * split; [done|]. intros (q' & [= <-] & H & _). congruence.
      * intros result. split; [done|].
        intros (q' & [= <-] & H & _). congruence.
  - eexists. split; [done|]. simpl.
    split_and!; [auto | | done | | lia | done].
    + split; [done|]. by intros (q' & H & _).
    + intros result. split; [done|]. by intros (q' & H & _).
Qed.

Lemma post_search_answers_witness :
  completion (server.postApiSearch Examples.allDown
                {[ "query" := JsString "Lipitor 20mg" ]})
  = Normal {| server.status := 500;
              server.json :=
                server.FailureBody false
                  "Failed to process your request. Please try again." |}
  ∧ calls (server.postApiSearch Examples.lipitorWorld
             {[ "query" := JsObject [("toString", JsNull)] ]})
    = [].
Proof.
  split.
  - destruct (post_search_answers Examples.allDown
                {[ "query" := JsString "Lipitor 20mg" ]})
      as (response & Hresp & _ & H500 & Hbody & _).
    rewrite Hresp. f_equal.
    assert (server.status response = 500) as Hstatus.
    { apply H500. eexists. split_and!;
        [apply lookup_singleton_eq | reflexivity | right; by eexists]. }
    specialize (Hbody Hstatus). destruct response as [st js]. simpl in *.
    by subst.
  - destruct (post_search_answers Examples.lipitorWorld
                {[ "query" := JsObject [("toString", JsNull)] ]})
      as (_ & _ & _ & _ & _ & _ & _ & Hnone).
    apply (Hnone (JsObject [("toString", JsNull)]));
      [apply lookup_singleton_eq | reflexivity].
Defined.

(** X9.  A query that is present is rejected with status 400 exactly when it
    is null, false, the number 0 or the empty string.  Any other value is
    handed to the agent unchanged exactly when it can be converted to a
    string for the logged message: every non-empty string, a string of
    blanks among them, every other number and true always can, an object
    can unless it has an own property toString, an array when its elements
    can.  A value that cannot is answered with status 500 and no agent
    run. *)
Theorem post_search_rejected_queries w (body : gmap string JsValue) query :
  body !! "query" = Some query →
  query ≠ JsUndefined →
  (server.postApiSearch w body
   = (Normal {| server.status := 400;
                server.json := server.ErrorBody "Query is required" |}, [])
   ↔ query = JsNull ∨ query = JsBool false ∨ query = JsNumber 0
     ∨ query = JsString EmptyString)
  ∧ (calls (server.postApiSearch w body) = [EvRun query]
     ↔ truthy query = true ∧ stringifies query = true)
  ∧ (truthy query = true → stringifies query = false →
     server.postApiSearch w body
     = (Normal {| server.status := 500;
                  server.json :=
                    server.FailureBody false
                      "Failed to process your request. Please try again." |},
        []))
  ∧ (∀ s, query = JsString s → s ≠ EmptyString →
       calls (server.postApiSearch w body) = [EvRun query])
  ∧ (∀ n, query = JsNumber n → n ≠ 0%Z →
       calls (server.postApiSearch w body) = [EvRun query])
  ∧ (query = JsBool true →
     calls (server.postApiSearch w body) = [EvRun query])
  ∧ (∀ fields, query = JsObject fields →
       (calls (server.postApiSearch w body) = [EvRun query]
        ↔ Forall (λ field, field.1 ≠ "toString") fields))
  ∧ (∀ items, query = JsArray items →
       (calls (server.postApiSearch w body) = [EvRun query]
        ↔ Forall (λ item, stringifies item = true) items)).
Proof.
  intros Hq Hdef.
  assert (truthy query = false
          ↔ query = JsNull ∨ query = JsBool false ∨ query = JsNumber 0
            ∨ query = JsString EmptyString) as Hfalsy.
  { destruct query as [| |[]|n|s| |]; simpl.
    - done.
    - split; [by left | done].
    - split; [done|]. intros [?|[?|[?|?]]]; done.
    - split; [intros _; right; by left | done].
    - destruct (Z.eqb_spec n 0) as [->|Hn]; simpl.
      + split; [intros _; right; right; by left | done].
      + split; [done|]. intros [?|[?|[[= ?]|?]]]; done.
    - destruct (decide (s = EmptyString)) as [->|Hs].
      + split; [intros _; right; right; by right | done].
      + rewrite bool_decide_eq_false_2 by done. simpl.
        split; [done|]. intros [?|[?|[?|[= ?]]]]; done.
    - split; [done|]. intros [?|[?|[?|?]]]; done.
    - split; [done|]. intros [?|[?|[?|?]]]; done. }
  assert (calls (server.postApiSearch w body) = [EvRun query]
          ↔ truthy query = true ∧ stringifies query = true) as Hrun.
  { rewrite postApiSearch_outcome, Hq. cbn zeta. simpl.
    destruct (truthy query); [|by split; [|intros [? _]]].
    destruct (stringifies query); [by split | by split; [|intros [_ ?]]]. }
  split_and!.
  - rewrite <- Hfalsy. rewrite postApiSearch_outcome, Hq. cbn zeta. simpl.
    destruct (truthy query); [|done].
    by destruct (stringifies query); [destruct (run w query)|].
  - exact Hrun.
  - intros Ht Hs. rewrite postApiSearch_outcome, Hq. cbn zeta. simpl.
    by rewrite Ht, Hs.
  - intros s -> Hs. apply Hrun. simpl. by rewrite bool_decide_eq_false_2.
  - intros n -> Hn. apply Hrun. simpl. by destruct (Z.eqb_spec n 0).
  - intros ->. by apply Hrun.
  - intros fields ->. rewrite Hrun. simpl. split.
    + intros [_ H]. apply negb_true_iff in H.
      apply Forall_forall. intros field Hin Hkey.
      assert (existsb (λ field, bool_decide (field.1 = "toString")) fields
              = true); [|congruence].
      apply existsb_exists. exists field.
      split; [by apply list_elem_of_In | by apply bool_decide_eq_true].
    + intros H. split; [done|]. apply negb_true_iff.
      destruct (existsb _ fields) eqn:E; [|done].
      apply existsb_exists in E as (field & Hin & Hkey).
      apply bool_decide_eq_true in Hkey.
      rewrite Forall_forall in H.
      by destruct (H field (proj2 (list_elem_of_In _ _) Hin)).
  - intros items ->. rewrite Hrun. simpl. split.
    + intros [_ H]. apply Forall_forall. intros item Hin.
      rewrite forallb_forall in H. apply H. by apply list_elem_of_In.
    + intros H. split; [done|]. apply forallb_forall. intros item Hin.
      rewrite Forall_forall in H. apply H. by apply list_elem_of_In.
Qed.

Lemma post_search_rejected_queries_witness :
  calls (server.postApiSearch Examples.lipitorWorld
           {[ "query" := JsString "   " ]})
  = [EvRun (JsString "   ")]
  ∧ calls (server.postApiSearch Examples.lipitorWorld
             {[ "query" := JsArray [] ]})
    = [EvRun (JsArray [])]
  ∧ server.postApiSearch Examples.lipitorWorld
      {[ "query" := JsObject [("toString", JsNull)] ]}
    = (Normal {| server.status := 500;
                 server.json :=
                   server.FailureBody false
                     "Failed to process your request. Please try again." |},
       []).
Proof.
  split_and!.
  - destruct (post_search_rejected_queries Examples.lipitorWorld
                {[ "query" := JsString "   " ]} (JsString "   "))
      as (_ & _ & _ & H & _); [apply lookup_singleton_eq | discriminate |].
    apply (H "   "); [reflexivity | discriminate].
  - destruct (post_search_rejected_queries Examples.lipitorWorld
                {[ "query" := JsArray [] ]} (JsArray []))
      as (_ & _ & _ & _ & _ & _ & _ & H);
      [apply lookup_singleton_eq | discriminate |].
    apply (H []); [reflexivity | constructor].
  - destruct (post_search_rejected_queries Examples.lipitorWorld
                {[ "query" := JsObject [("toString", JsNull)] ]}
                (JsObject [("toString", JsNull)]))
      as (_ & _ & H & _); [apply lookup_singleton_eq | discriminate |].
    apply H; reflexivity.
Defined.

(** X10.  Loading med_tool.js runs the agent only when the script path
    includes med_tool.js, and then at most once: on the default query when no
    argument is given, on the arguments joined by single spaces otherwise;
    arguments that join to the empty string run nothing. *)
Theorem module_load_runs_agent w (argv : list string) :
  (isMainModule argv = false → moduleLoad w argv = (Normal JsUndefined, []))
  ∧ (isMainModule argv = true → drop 2 argv = [] →
     moduleLoad w argv
     = (run w (JsString defaultQuery), [EvRun (JsString defaultQuery)]))
  ∧ (∀ args, isMainModule argv = true → drop 2 argv = args → args ≠ [] →
       moduleLoad w argv
       = if bool_decide (String.concat " " args = EmptyString)
         then (Normal JsUndefined, [])
         else (run w (JsString (String.concat " " args)),
               [EvRun (JsString (String.concat " " args))])).
Proof.
  unfold moduleLoad. split_and!.
  - by intros ->.
  - intros -> ->. simpl. by rewrite main_truthy.
  - intros args Hmain Hargs Hne. rewrite Hmain. subst args.
    assert (0 < length (drop 2 argv)) as Hlen.
    { destruct (drop 2 argv) eqn:E; [congruence | simpl; lia]. }
    rewrite bool_decide_eq_true_2 by done.
    destruct (bool_decide (String.concat " " (drop 2 argv) = EmptyString))
      eqn:E.
    + unfold main. simpl. by rewrite E.
    + rewrite main_truthy; [done|]. simpl. by rewrite E.
Qed.

Lemma module_load_runs_agent_witness :
  moduleLoad Examples.lipitorWorld ["node"; "/app/med_tool.js"; "Crocin"; "650mg"]
  = (Normal (JsString "Buy the generic atorvastatin."),
     [EvRun (JsString "Crocin 650mg")])
  ∧ moduleLoad Examples.lipitorWorld ["node"; "/app/med_tool.js"; ""]
    = (Normal JsUndefined, [])
  ∧ moduleLoad Examples.lipitorWorld ["node"; "/app/server.js"]
    = (Normal JsUndefined, []).
Proof.
  destruct (module_load_runs_agent Examples.lipitorWorld
              ["node"; "/app/med_tool.js"; "Crocin"; "650mg"])
    as (_ & _ & H1).
  destruct (module_load_runs_agent Examples.lipitorWorld
              ["node"; "/app/med_tool.js"; ""]) as (_ & _ & H2).
  destruct (module_load_runs_agent Examples.lipitorWorld
              ["node"; "/app/server.js"]) as (H3 & _).
  split_and!.
  - apply (H1 ["Crocin"; "650mg"]); [reflexivity | reflexivity | discriminate].
  - apply (H2 [EmptyString]); [reflexivity | reflexivity | discriminate].
  - apply H3. reflexivity.
Defined.

(** ** More on find_generic_with_prices *)

Lemma firstConcept_FirstOf ty groups p :
  firstConcept ty groups = Some p ↔ FirstOf ty groups p.
Proof.
  induction groups as [|g groups IH].
  - split; [done|]. intros (before & g & after & props & H & _).
    by destruct before.
  - rewrite firstConcept_cons. split.
    + destruct (decide (RxNav.tty g = ty)) as [Hty|Hty].
      * destruct (RxNav.conceptProperties g) as [[|q props]|] eqn:E; simpl.
        -- intros (before & g' & after & ps & -> & ? & ? & ?)%IH.
           exists (g :: before), g', after, ps. split_and!; try done.
           constructor; [|done]. intros _. by right.
        -- intros [= ->]. exists [], g, groups, props. by split_and!.
        -- intros (before & g' & after & ps & -> & ? & ? & ?)%IH.
           exists (g :: before), g', after, ps. split_and!; try done.
           constructor; [|done]. intros _. by left.
      * intros (before & g' & after & ps & -> & ? & ? & ?)%IH.
        exists (g :: before), g', after, ps. split_and!; try done.
        constructor; [|done]. by intros ?.
    + intros (before & g' & after & ps & Heq & Hty & Hprops & Hbefore).
      destruct before as [|b before]; simpl in Heq; injection Heq as -> ->.
      * by rewrite decide_True, Hprops.
      * apply Forall_cons in Hbefore as [Hb Hbefore].
        assert (firstConcept ty (before ++ g' :: after) = Some p) as ->.
        { apply IH. by exists before, g', after, ps. }
        destruct (decide (RxNav.tty b = ty)) as [Hbty|]; [|done].
        by destruct (Hb Hbty) as [-> | ->].
Qed.

(** X11.  The scan of the name search in find_generic_with_prices is
    first-seen-wins: the generic, branded and ingredient concepts it keeps
    are each the first concept of the first SCD, SBD and IN group that holds
    one; groups without conceptProperties or with an empty array are passed
    over, and a later group of the same type never replaces the choice. *)
Theorem name_search_scan_first_seen groups :
  let found :=
    foldl findGenericWithPrices.scan findGenericWithPrices.nothingFound groups in
  (∀ p, findGenericWithPrices.genericDrug found = Some p ↔ FirstOf "SCD" groups p)
  ∧ (∀ p, findGenericWithPrices.brandedDrug found = Some p
          ↔ FirstOf "SBD" groups p)
  ∧ (∀ p, findGenericWithPrices.ingredient found = Some p
          ↔ FirstOf "IN" groups p)
  ∧ ∀ more,
      let found' :=
        foldl findGenericWithPrices.scan findGenericWithPrices.nothingFound
          (groups ++ more) in
      (is_Some (findGenericWithPrices.genericDrug found) →
       findGenericWithPrices.genericDrug found'
       = findGenericWithPrices.genericDrug found)
      ∧ (is_Some (findGenericWithPrices.brandedDrug found) →
         findGenericWithPrices.brandedDrug found'
         = findGenericWithPrices.brandedDrug found)
      ∧ (is_Some (findGenericWithPrices.ingredient found) →
         findGenericWithPrices.ingredient found'
         = findGenericWithPrices.ingredient found).
Proof.
  simpl. rewrite scan_nothingFound. simpl. split_and!.
  - intros p. apply firstConcept_FirstOf.
  - intros p. apply firstConcept_FirstOf.
  - intros p. apply firstConcept_FirstOf.
  - intros more. rewrite foldl_app, scan_nothingFound, scan_first_wins. simpl.
    split_and!; by intros [p ->].
Qed.

(** X12.  apiData is null exactly when there are no related-concepts groups
    to read (no formulation concept, a failed request, or a response without
    conceptGroup), or when one of them is an IN, SCD or DF group with an
    empty conceptProperties array: reading its first concept's name throws,
    and the fields derived from the other groups are dropped with it.  An
    empty BN array is harmless. *)
Theorem api_data_null_iff w medicineName :
  ∃ payload,
    completion (findGenericWithPrices.execute w medicineName) = Normal payload
    ∧ (findGenericWithPrices.apiData payload = None ↔
       relatedConcepts w medicineName = None
       ∨ ∃ rgroups,
           relatedConcepts w medicineName = Some rgroups
           ∧ Exists emptyNamedGroup rgroups).
Proof.
  eexists. split; [by rewrite execute_outcome|]. simpl.
  rewrite vocabulary_relatedConcepts.
  destruct (relatedConcepts w medicineName) as [rgroups|]; simpl.
  - destruct (foldlM _ _ rgroups) as [a|e] eqn:E.
    + split; [done|]. intros [?|(rg & [= <-] & Hex)]; [done|].
      apply (foldlM_derive_Thrown findGenericWithPrices.emptyApiResult) in Hex
        as [e He].
      congruence.
    + split; [|done]. intros _. right. exists rgroups. split; [done|].
      apply (foldlM_derive_Thrown findGenericWithPrices.emptyApiResult).
      by exists e.
  - split; [by left | done].
Qed.

Lemma api_data_null_iff_witness :
  ∃ payload,
    completion (findGenericWithPrices.execute Examples.emptyDoseFormWorld
                  "Lipitor 20mg") = Normal payload
    ∧ findGenericWithPrices.apiData payload = None.
Proof.
  destruct (api_data_null_iff Examples.emptyDoseFormWorld "Lipitor 20mg")
    as (payload & Hp & Hnull).
  exists payload. split; [done|]. apply Hnull. right.
  exists Examples.emptyDoseForm. split; [reflexivity|].
  apply Exists_cons. right. apply Exists_cons. left.
  split; [reflexivity | right; by right].
Defined.

(** X13.  The prompt of the price search can be read off the returned
    payload: it is built from the payload's medicine and, as salt, from its
    apiData's active ingredient when that is a non-empty string and from the
    medicine name otherwise.  It is the only generation call, and the last
    call, of the execution. *)
Theorem price_prompt_from_payload w medicineName :
  ∃ payload,
    completion (findGenericWithPrices.execute w medicineName) = Normal payload
    ∧ findGenericWithPrices.medicine payload = medicineName
    ∧ last (calls (findGenericWithPrices.execute w medicineName))
      = Some (EvGenerate
                (findGenericWithPrices.searchPrompt
                   (findGenericWithPrices.medicine payload)
                   (match findGenericWithPrices.apiData payload
                          ≫= findGenericWithPrices.activeIngredient with
                    | Some salt =>
                        if decide (salt = EmptyString)
                        then findGenericWithPrices.medicine payload else salt
                    | None => findGenericWithPrices.medicine payload
                    end)))
    ∧ length (List.filter isGenerate
                (calls (findGenericWithPrices.execute w medicineName))) = 1.
Proof.
  eexists. rewrite execute_outcome. unfold completion, calls.
  cbn [fst snd]. split; [done|]. cbn [findGenericWithPrices.medicine
    findGenericWithPrices.apiData]. split; [done|]. split.
  - rewrite last_snoc. unfold pricePrompt, or_else. do 3 f_equal.
    destruct (vocabulary w medicineName ≫= findGenericWithPrices.activeIngredient)
      as [salt|]; [|done].
    destruct (decide (salt = EmptyString)).
    + by rewrite bool_decide_eq_true_2.
    + by rewrite bool_decide_eq_false_2.
  - rewrite List.filter_app, length_app.
    fold (calls (vocabularyStep w medicineName)).
    rewrite vocabularyStep_calls.
    by destruct (encodeURIComponent w medicineName);
      destruct (formulation w medicineName).
Qed.

(** ** More on the tools that search by name *)

Lemma entries_nil_iff groups :
  groups ≫= entriesOf = [] ↔ Forall holdsNothing groups.
Proof.
  induction groups as [|g groups IH]; [done|].
  rewrite Forall_cons, <- IH. cbn [mbind list_bind]. rewrite app_nil.
  unfold entriesOf at 1, holdsNothing.
  destruct (RxNav.conceptProperties g) as [[|p props]|]; simpl.
  - split; [intros [_ H]; split; [by right | done] | by intros [_ H]].
  - split; [by intros [H _] | intros [[H|H] _]; done].
  - split; [intros [_ H]; split; [by left | done] | by intros [_ H]].
Qed.

(** X14.  When the name search returns concept groups but none of them holds
    a concept (an empty conceptGroup array, groups without conceptProperties
    or with empty arrays), search_medicine reports success with an empty
    results list and totalFound 0, not the not-found answer; and that is the
    only way totalFound is 0. *)
Theorem search_medicine_empty_success w medicineName groups :
  nameSearch w medicineName = Normal (Some groups) →
  (Forall holdsNothing groups →
   completion (searchMedicine.execute w medicineName)
   = Normal (searchMedicine.Found medicineName [] 0))
  ∧ (∀ term results,
       completion (searchMedicine.execute w medicineName)
       = Normal (searchMedicine.Found term results 0) →
       Forall holdsNothing groups ∧ results = []).
Proof.
  intros Hsearch. unfold searchMedicine.execute.
  rewrite try_catch_completion, searchMedicine_body, Hsearch. simpl.
  rewrite searchMedicine_collect. split.
  - intros Hempty%entries_nil_iff. by rewrite Hempty.
  - intros term results [= _ <- Hlen].
    apply nil_length_inv in Hlen. rewrite Hlen. split; [|done].
    by apply entries_nil_iff.
Qed.

Lemma search_medicine_empty_success_witness :
  completion (searchMedicine.execute Examples.hollowWorld "Crocin")
  = Normal (searchMedicine.Found "Crocin" [] 0).
Proof.
  apply (proj1 (search_medicine_empty_success Examples.hollowWorld "Crocin"
                  [Examples.bare "SCD"; Examples.group "SBD" []] eq_refl)).
  apply Forall_cons. split; [by left|].
  apply Forall_cons. split; [by right | constructor].
Defined.

Lemma formulationsOf_length group :
  length (formulationsOf group) ≤ length (entriesOf group).
Proof.
  unfold formulationsOf, entriesOf.
  destruct (decide (RxNav.tty group = "SCD")); [|simpl; lia].
  rewrite !length_fmap. apply length_filter.
Qed.

Lemma formulationsOf_entry group f :
  f ∈ formulationsOf group →
  ∃ e, e ∈ entriesOf group
       ∧ searchMedicine.type e = "SCD"
       ∧ searchMedicine.name e = getAvailableDosages.name f
       ∧ searchMedicine.rxcui e = getAvailableDosages.rxcui f.
Proof.
  unfold formulationsOf, entriesOf.
  destruct (decide (RxNav.tty group = "SCD")) as [Hty|];
    [|by intros ?%elem_of_nil].
  intros (drug & -> & [_ Hd]%list_elem_of_filter)%list_elem_of_fmap.
  exists (searchMedicine.entry group drug). split_and!; try done.
  by apply list_elem_of_fmap_2.
Qed.

(** X15.  On the same answer of the vocabulary service, get_available_dosages
    never returns more formulations than search_medicine counts in
    totalFound, and when search_medicine's list is not cut (totalFound at
    most 10) every formulation appears in it as a result of type SCD with
    the same name and identifier. *)
Theorem dosages_within_search_results
    w medicineName term results total ingredient forms note :
  completion (searchMedicine.execute w medicineName)
  = Normal (searchMedicine.Found term results total) →
  completion (getAvailableDosages.execute w medicineName)
  = Normal (getAvailableDosages.Found ingredient forms note) →
  length forms ≤ total
  ∧ (total ≤ 10 →
     ∀ f, f ∈ forms →
       ∃ e, e ∈ results
            ∧ searchMedicine.type e = "SCD"
            ∧ searchMedicine.name e = getAvailableDosages.name f
            ∧ searchMedicine.rxcui e = getAvailableDosages.rxcui f).
Proof.
  unfold searchMedicine.execute, getAvailableDosages.execute.
  rewrite !try_catch_completion, searchMedicine_body, getAvailableDosages_body.
  destruct (nameSearch w medicineName) as [[groups|]|e]; simpl; try done.
  rewrite searchMedicine_collect, getAvailableDosages_collect.
  intros [= _ <- <-] [= _ <- _]. split.
  - induction groups as [|g groups IH]; [done|].
    cbn [mbind list_bind]. rewrite !length_app.
    pose proof (formulationsOf_length g). lia.
  - intros Hle f (g & Hf & Hg)%list_elem_of_bind.
    destruct (formulationsOf_entry g f Hf) as (e & He & Hfields).
    exists e. split; [|done]. rewrite take_ge by done.
    apply list_elem_of_bind. by exists g.
Qed.

Lemma dosages_within_search_results_witness :
  ∃ forms total : nat, forms ≤ total ∧ forms = 4 ∧ total = 12.
Proof.
  exists 4, 12.
  destruct (dosages_within_search_results Examples.manyWorld "acetaminophen"
              "acetaminophen"
              (take 10 (mbind (M:=list) entriesOf Examples.manyConcepts)) 12
              "acetaminophen"
              (mbind (M:=list) formulationsOf Examples.manyConcepts)
              "These are pure generic formulations without combination drugs. Ask your doctor which dosage is right for you."
              eq_refl eq_refl) as [Hle _].
  split; [exact Hle | split; reflexivity].
Defined.

(** ** Outbound calls *)

Lemma findGenericEquivalent_calls w brandName :
  calls (findGenericEquivalent.execute w brandName) = []
  ∨ (∃ encoded,
       calls (findGenericEquivalent.execute w brandName)
       = [EvGet (rxnavDrugsUrl encoded)])
  ∨ (∃ encoded id,
       calls (findGenericEquivalent.execute w brandName)
       = [EvGet (rxnavDrugsUrl encoded); EvGet (rxnavRelatedUrl id)]).
Proof.
  unfold findGenericEquivalent.execute, findGenericEquivalent.body. run_monad.
  destruct (encodeURIComponent w brandName) as [enc|]; [|by left]. simpl.
  destruct (axios_get w (rxnavDrugsUrl enc)) as [resp|];
    [|right; left; by exists enc]. simpl.
  destruct (drugGroup_conceptGroup resp) as [[groups|]|];
    [| right; left; by exists enc | right; left; by exists enc]. simpl.
  destruct (findGenericEquivalent.find_target groups) as [[p|]|];
    [| right; left; by exists enc | right; left; by exists enc]. simpl.
  destruct (bool_decide (RxNav.rxcui p = EmptyString));
    [right; left; by exists enc|]. simpl.
  right. right. exists enc, (RxNav.rxcui p).
  destruct (axios_get w (rxnavRelatedUrl (RxNav.rxcui p))) as [rr|]; [|done].
  simpl. by destruct (allRelatedGroup_conceptGroup rr) as [[rgroups|]|].
Qed.

Lemma single_search_calls {A} w name (k : option (list RxNav.ConceptGroup) → M A)
    (h : JsError → A) :
  (∀ c, (k c).2 = []) →
  length (calls (try_catch
                   (encoded ← lift (encodeURIComponent w name);
                    response ← get w (rxnavDrugsUrl encoded);
                    conceptGroup ← lift (drugGroup_conceptGroup response);
                    k conceptGroup)
                   (λ e, mret (h e)))) ≤ 1
  ∧ Forall (λ ev, isGet ev = true)
      (calls (try_catch
                (encoded ← lift (encodeURIComponent w name);
                 response ← get w (rxnavDrugsUrl encoded);
                 conceptGroup ← lift (drugGroup_conceptGroup response);
                 k conceptGroup)
                (λ e, mret (h e)))).
Proof.
  intros Hk. run_monad.
  destruct (encodeURIComponent w name) as [enc|]; [|split; [simpl; lia | constructor]]. simpl.
  destruct (axios_get w (rxnavDrugsUrl enc)) as [resp|];
    [|split; [simpl; lia | by repeat constructor]]. simpl.
  destruct (drugGroup_conceptGroup resp) as [c|];
    [|split; [simpl; lia | by repeat constructor]]. simpl.
  rewrite Hk. destruct (k c).1; split; simpl; try lia; by repeat constructor.
Qed.

(** X16.  No tool retries or repeats a request.  search_medicine and
    get_available_dosages issue at most one request and get_medicine_details
    exactly one, all to the vocabulary service; find_generic_equivalent
    issues at most two, all different; web_search_medicine and
    search_india_medicine issue exactly one generation call;
    find_generic_with_prices issues at most three calls, all different, of
    which at most two go to the vocabulary service. *)
Theorem tools_never_repeat_a_request w a :
  (length (calls (searchMedicine.execute w a)) ≤ 1
   ∧ Forall (λ ev, isGet ev = true) (calls (searchMedicine.execute w a)))
  ∧ (length (calls (getAvailableDosages.execute w a)) ≤ 1
     ∧ Forall (λ ev, isGet ev = true) (calls (getAvailableDosages.execute w a)))
  ∧ calls (getMedicineDetails.execute w a) = [EvGet (rxnavRelatedUrl a)]
  ∧ (length (calls (findGenericEquivalent.execute w a)) ≤ 2
     ∧ NoDup (calls (findGenericEquivalent.execute w a))
     ∧ Forall (λ ev, isGet ev = true) (calls (findGenericEquivalent.execute w a)))
  ∧ calls (webSearchMedicine.execute w a)
    = [EvGenerate (webSearchMedicine.prompt a)]
  ∧ calls (searchIndiaMedicine.execute w a)
    = [EvGenerate (searchIndiaMedicine.searchPrompt a)]
  ∧ (length (calls (findGenericWithPrices.execute w a)) ≤ 3
     ∧ NoDup (calls (findGenericWithPrices.execute w a))
     ∧ length (List.filter isGet (calls (findGenericWithPrices.execute w a)))
       ≤ 2).
Proof.
  split_and!.
  - apply (single_search_calls w a). by intros [groups|].
  - apply (single_search_calls w a). by intros [groups|].
  - apply (single_search_calls w a). by intros [groups|].
  - apply (single_search_calls w a). by intros [groups|].
  - unfold getMedicineDetails.execute, getMedicineDetails.body. run_monad.
    destruct (axios_get w (rxnavRelatedUrl a)) as [resp|]; [|done]. simpl.
    by destruct (allRelatedGroup_conceptGroup resp) as [[groups|]|].
  - destruct (findGenericEquivalent_calls w a)
      as [-> | [[enc ->] | (enc & id & ->)]]; simpl; lia.
  - destruct (findGenericEquivalent_calls w a)
      as [-> | [[enc ->] | (enc & id & ->)]].
    + constructor.
    + apply NoDup_singleton.
    + apply NoDup_cons. split; [|apply NoDup_singleton].
      intros H%list_elem_of_singleton.
      apply (related_url_not_drugs_url id enc). congruence.
  - destruct (findGenericEquivalent_calls w a)
      as [-> | [[enc ->] | (enc & id & ->)]]; by repeat constructor.
  - unfold webSearchMedicine.execute, webSearchMedicine.body, generate.
    unfold try_catch, mbind, M_bind, lift, calls.
    destruct (generateText w (webSearchMedicine.prompt a)) as [g|]; [|done].
    cbn -[webSearchMedicine.prompt].
    rewrite webSearchMedicine_sourcesInfo. done.
  - unfold searchIndiaMedicine.execute, searchIndiaMedicine.body, generate.
    unfold try_catch, mbind, M_bind, lift, calls.
    destruct (generateText w (searchIndiaMedicine.searchPrompt a)) as [g|];
      [|done].
    cbn -[searchIndiaMedicine.searchPrompt].
    rewrite searchIndiaMedicine_sourcesInfo. done.
  - rewrite execute_outcome. unfold calls at 1. cbn [snd].
    rewrite vocabularyStep_calls.
    destruct (encodeURIComponent w a); destruct (formulation w a); simpl; lia.
  - rewrite execute_outcome. unfold calls at 1. cbn [snd].
    rewrite vocabularyStep_calls.
    destruct (encodeURIComponent w a) as [enc|];
      destruct (formulation w a) as [p|]; simpl.
    + apply NoDup_cons. split.
      { rewrite !elem_of_cons, elem_of_nil. intros [H|[H|[]]]; [|done].
        apply (related_url_not_drugs_url (RxNav.rxcui p) enc). congruence. }
      apply NoDup_cons. split; [|apply NoDup_singleton].
      by intros H%list_elem_of_singleton.
    + apply NoDup_cons. split; [|apply NoDup_singleton].
      by intros H%list_elem_of_singleton.
    + apply NoDup_cons. split; [|apply NoDup_singleton].
      by intros H%list_elem_of_singleton.
    + apply NoDup_singleton.
  - rewrite execute_outcome. unfold calls at 1. cbn [snd].
    rewrite vocabularyStep_calls.
    by destruct (encodeURIComponent w a); destruct (formulation w a); simpl; lia.
Qed.

(** ** The data of find_generic_equivalent *)

Lemma findGenericEquivalent_loop result groups :
  let result' := foldl findGenericEquivalent.step result groups in
  findGenericEquivalent.activeIngredient result'
  = match lastProps "IN" groups with
    | Some props => Some (String.concat ", " (RxNav.name <$> props))
    | None => findGenericEquivalent.activeIngredient result
    end
  ∧ findGenericEquivalent.genericVersion result'
    = match lastProps "SCD" groups with
      | Some props => Some (findGenericEquivalent.named <$> props)
      | None => findGenericEquivalent.genericVersion result
      end
  ∧ findGenericEquivalent.brandedVersions result'
    = match lastProps "SBD" groups with
      | Some props => findGenericEquivalent.named <$> props
      | None => findGenericEquivalent.brandedVersions result
      end.
Proof.
  induction groups as [|g groups IH] using rev_ind; [done|].
  cbn zeta in *. rewrite foldl_app. cbn [foldl]. rewrite !lastProps_snoc.
  destruct IH as (IH1 & IH2 & IH3).
  unfold findGenericEquivalent.step.
  destruct g as [tty [props|]]; cbn [RxNav.tty RxNav.conceptProperties].
  - destruct (decide (tty = "IN")) as [->|?]; [done|].
    destruct (decide (tty = "SCD")) as [->|?]; [done|].
    destruct (decide (tty = "SBD")) as [->|?]; done.
  - by repeat case_decide.
Qed.

Lemma findGenericEquivalent_identifiedAs result rgroups :
  findGenericEquivalent.identifiedAs
    (findGenericEquivalent.recommend
       (foldl findGenericEquivalent.step result rgroups))
  = findGenericEquivalent.identifiedAs result.
Proof.
  assert (∀ r, findGenericEquivalent.identifiedAs
                 (findGenericEquivalent.recommend r)
               = findGenericEquivalent.identifiedAs r) as ->.
  { intros r. unfold findGenericEquivalent.recommend.
    by destruct (findGenericEquivalent.genericVersion r) as [[|? ?]|]. }
  revert result. induction rgroups as [|g rgroups IH]; intros result; [done|].
  simpl. rewrite IH. unfold findGenericEquivalent.step.
  destruct (RxNav.conceptProperties g); [|done]. by repeat case_decide.
Qed.

Lemma findGenericEquivalent_found_search w brandName data :
  completion (findGenericEquivalent.execute w brandName)
  = Normal (findGenericEquivalent.Found data) →
  ∃ groups, nameSearch w brandName = Normal (Some groups).
Proof.
  unfold findGenericEquivalent.execute, findGenericEquivalent.body, nameSearch.
  run_monad.
  destruct (encodeURIComponent w brandName) as [enc|]; [|done]. simpl.
  destruct (axios_get w (rxnavDrugsUrl enc)) as [resp|]; [|done]. simpl.
  destruct (drugGroup_conceptGroup resp) as [[groups|]|]; [|done|done].
  intros _. by exists groups.
Qed.

(** X17.  The data of a successful find_generic_equivalent answer come from
    the related concepts of the identified medicine.  The identified
    medicine is the first concept of the first SCD or SBD group of the name
    search; the second and last request of the tool asks for the related
    concepts of its rxcui, and identifiedAs is its name.  From that response
    the active ingredient is the names of the last IN group joined by a comma
    and a space, the generic and branded versions are the concepts of the
    last SCD and SBD groups; without such a group they stay null, null and
    the empty list, as they do when the response holds no conceptGroup. *)
Theorem generic_equivalent_data w brandName data :
  completion (findGenericEquivalent.execute w brandName)
  = Normal (findGenericEquivalent.Found data) →
  ∃ encoded groups group rest p props response related,
    encodeURIComponent w brandName = Normal encoded
    ∧ nameSearch w brandName = Normal (Some groups)
    ∧ filter isFormulationGroup groups = group :: rest
    ∧ RxNav.conceptProperties group = Some (p :: props)
    ∧ calls (findGenericEquivalent.execute w brandName)
      = [EvGet (rxnavDrugsUrl encoded);
         EvGet (rxnavRelatedUrl (RxNav.rxcui p))]
    ∧ findGenericEquivalent.identifiedAs data = RxNav.name p
    ∧ axios_get w (rxnavRelatedUrl (RxNav.rxcui p)) = Normal response
    ∧ allRelatedGroup_conceptGroup response = Normal related
    ∧ findGenericEquivalent.activeIngredient data
      = (λ props, String.concat ", " (RxNav.name <$> props))
          <$> lastProps "IN" (default [] related)
    ∧ findGenericEquivalent.genericVersion data
      = mapProps findGenericEquivalent.named
          (lastProps "SCD" (default [] related))
    ∧ findGenericEquivalent.brandedVersions data
      = default []
          (mapProps findGenericEquivalent.named
             (lastProps "SBD" (default [] related))).
Proof.
  intros Hfound.
  destruct (findGenericEquivalent_found_search w brandName data Hfound)
    as [groups Hsearch].
  destruct (findGenericEquivalent_search w brandName groups Hsearch)
    as (enc & Henc & Hbody).
  revert Hfound. unfold findGenericEquivalent.execute. rewrite Hbody.
  rewrite find_target_filter.
  destruct (filter isFormulationGroup groups) as [|group rest] eqn:Hfilter;
    [done|].
  destruct (RxNav.conceptProperties group) as [[|p props]|] eqn:Hprops;
    [done| |done].
  run_monad.
  destruct (bool_decide (RxNav.rxcui p = EmptyString)); [done|]. simpl.
  destruct (axios_get w (rxnavRelatedUrl (RxNav.rxcui p))) as [rr|] eqn:Hget;
    [|done].
  simpl.
  destruct (allRelatedGroup_conceptGroup rr) as [related|] eqn:Hrel; [|done].
  assert (∀ result,
            findGenericEquivalent.activeIngredient
              (findGenericEquivalent.recommend result)
            = findGenericEquivalent.activeIngredient result
            ∧ findGenericEquivalent.genericVersion
                (findGenericEquivalent.recommend result)
              = findGenericEquivalent.genericVersion result
            ∧ findGenericEquivalent.brandedVersions
                (findGenericEquivalent.recommend result)
              = findGenericEquivalent.brandedVersions result) as Hrec.
  { intros result. unfold findGenericEquivalent.recommend.
    destruct (findGenericEquivalent.genericVersion result) as [[|? ?]|] eqn:E;
      simpl; rewrite ?E; by split_and!. }
  destruct related as [rgroups|]; simpl; intros Hdata;
    injection Hdata as <-;
    exists enc, groups, group, rest, p, props, rr; eexists;
    (split; [done|]); (split; [done|]); (split; [done|]); (split; [done|]);
    (split; [done|]).
  - split; [apply findGenericEquivalent_identifiedAs|].
    split; [done|]. split; [done|].
    destruct (Hrec (foldl findGenericEquivalent.step
                      {| findGenericEquivalent.searchedFor := brandName;
                         findGenericEquivalent.identifiedAs := RxNav.name p;
                         findGenericEquivalent.activeIngredient := None;
                         findGenericEquivalent.genericVersion := None;
                         findGenericEquivalent.brandedVersions := [];
                         findGenericEquivalent.recommendation := None |}
                      rgroups)) as (-> & -> & ->).
    destruct (findGenericEquivalent_loop
                {| findGenericEquivalent.searchedFor := brandName;
                   findGenericEquivalent.identifiedAs := RxNav.name p;
                   findGenericEquivalent.activeIngredient := None;
                   findGenericEquivalent.genericVersion := None;
                   findGenericEquivalent.brandedVersions := [];
                   findGenericEquivalent.recommendation := None |} rgroups)
      as (-> & -> & ->).
    simpl. split_and!.
    + by destruct (lastProps "IN" rgroups).
    + by destruct (lastProps "SCD" rgroups).
    + by destruct (lastProps "SBD" rgroups).
  - by split_and!.
Qed.

Lemma generic_equivalent_data_witness :
  ∃ data,
    completion (findGenericEquivalent.execute Examples.brandedFirstWorld "Lipitor")
    = Normal (findGenericEquivalent.Found data)
    ∧ findGenericEquivalent.activeIngredient data = Some "atorvastatin"
    ∧ calls (findGenericEquivalent.execute Examples.brandedFirstWorld "Lipitor")
      = [EvGet (rxnavDrugsUrl "Lipitor"); EvGet (rxnavRelatedUrl "617320")].
Proof.
  eexists. split; [vm_compute; reflexivity|].
  destruct (generic_equivalent_data Examples.brandedFirstWorld "Lipitor" _
              eq_refl)
    as (enc & groups & group & rest & p & props & response & related
        & Henc & Hsearch & Hfilter & Hprops & Hcalls & _).
  split; [reflexivity|]. rewrite Hcalls.
  vm_compute in Henc. injection Henc as <-.
  vm_compute in Hsearch. injection Hsearch as <-.
  vm_compute in Hfilter. injection Hfilter as <- <-.
  vm_compute in Hprops. injection Hprops as <- <-. reflexivity.
Defined.

Lemma name_search_scan_first_seen_witness :
  FirstOf "SBD" Examples.emptyFirst
    (Examples.concept "617320" "atorvastatin 20 MG Oral Tablet [Lipitor]").
Proof.
  destruct (name_search_scan_first_seen Examples.emptyFirst) as (_ & H & _).
  apply H. reflexivity.
Defined.
